(** * DataProcessor: exchange rates fetched over HTTP, cached in Redis, reported

    A shallow embedding of [BigData_Assignemt3_API.py].  The class
    [DataProcessor] holds an API URL and an injected Redis client; its methods
    read and write the cache, call the HTTP endpoint, print to the console and
    show a bar chart.  Those effects are threaded through an explicit [world];
    Python exceptions are an error result. *)

From Stdlib Require Import ZArith QArith Floats Uint63 Sorted Permutation Lia.
From stdpp Require Import base option list strings gmap.

Set Warnings "-register-all,-inexact-float".
Local Open Scope string_scope.
Local Open Scope list_scope.

(** ** Exceptions and results *)

(** The exception classes the program names or can raise.  A subclass is
    identified with the base class an [except] clause of the program tests:
    [requests.HTTPError] and [requests.ConnectionError] are
    [RequestException], [redis.ConnectionError] and [redis.ResponseError]
    are [RedisError]. *)
Inductive exn : Type :=
| RequestException
| JSONDecodeError
| RedisError
| TypeError
| KeyError
| AttributeError
| IndexError
| ZeroDivisionError
| ValueError.

(** What evaluating a Python expression gives: a value or a raised exception. *)
Inductive outcome (A : Type) : Type :=
| Ret (a : A)
| Raise (e : exn).
Arguments Ret {A} a.
Arguments Raise {A} e.

(** ** Numbers

    The rates are JSON numbers, [float] (or [int]) in Python.  The program
    uses [<] (inside [sorted], [min] and, flipped, [max]), [<=] (the range
    test), the built-in [sum] and [/]; the interface below names exactly
    these, and [num_of_int] for an [int] operand: the length that the sum is
    divided by. *)
Class Number (num : Type) : Type := {
  num_lt : num → num → bool;
  num_le : num → num → bool;
  num_sum : list num → num;
  num_div : num → num → num;
  num_of_int : Z → num
}.

(** An [int] as a [float], exact below 2^53 and rounded to nearest below
    2^63; lengths are far below. *)
Definition float_of_Z (z : Z) : float :=
  match z with
  | Z0 => 0%float
  | Zpos _ => PrimFloat.of_uint63 (Uint63.of_Z z)
  | Zneg p => (- PrimFloat.of_uint63 (Uint63.of_Z (Zpos p)))%float
  end.

(** How the built-in [sum] adds floats depends on the interpreter, and the
    repository names none: up to CPython 3.11 it adds from left to right, from
    CPython 3.12 on it also keeps a compensation of the rounding errors
    (Neumaier's variant of Kahan's summation). *)
Inductive summation : Type :=
| LeftToRight
| Compensated.

(** [sum(values)] up to CPython 3.11: the values added to [0] one by one. *)
Definition float_sum_left_to_right (values : list float) : float :=
  fold_left PrimFloat.add values 0%float.

(** One round of the loop of CPython 3.12 over a float [x], on the running
    sum [f_result] and the compensation [c]:
    [t = f_result + x], then [c += (f_result - t) + x] when
    [fabs(f_result) >= fabs(x)] and [c += (x - t) + f_result] otherwise, then
    [f_result = t]. *)
Definition compensated_step (state : float * float) (x : float) : float * float :=
  let f_result := state.1 in
  let c := state.2 in
  let t := (f_result + x)%float in
  (t, if PrimFloat.leb (PrimFloat.abs x) (PrimFloat.abs f_result)
      then (c + ((f_result - t) + x))%float
      else (c + ((x - t) + f_result))%float).

(** [if (c && isfinite(c)) f_result += c;] at the end of that loop. *)
Definition compensated_total (state : float * float) : float :=
  if negb (PrimFloat.is_zero state.2) && PrimFloat.is_finite state.2
  then (state.1 + state.2)%float
  else state.1.

(** [sum(values)] from CPython 3.12 on: the first value is added to the
    [int] [0], the loop with the compensation takes the others. *)
Definition float_sum_compensated (values : list float) : float :=
  match values with
  | [] => 0%float
  | x :: rest =>
      compensated_total (fold_left compensated_step rest ((0 + x)%float, 0%float))
  end.

Definition float_sum (s : summation) : list float → float :=
  match s with
  | LeftToRight => float_sum_left_to_right
  | Compensated => float_sum_compensated
  end.

(** Python's [float]: IEEE 754 binary64 with its own comparisons and
    rounding, NaN and the infinities included, under either summation. *)
Definition float_number_of (s : summation) : Number float := {|
  num_lt := PrimFloat.ltb;
  num_le := PrimFloat.leb;
  num_sum := float_sum s;
  num_div := PrimFloat.div;
  num_of_int := float_of_Z
|}.

(** The floats of the concrete runs: those of CPython up to 3.11. *)
#[global] Instance float_number : Number float := float_number_of LeftToRight.

(** Exact rationals, what the JSON number literals denote before they are
    rounded to a [float]; their sum does not depend on the summation. *)
Definition Q_lt (x y : Q) : bool :=
  match Qcompare x y with Lt => true | _ => false end.

Definition Q_le (x y : Q) : bool :=
  match Qcompare x y with Gt => false | _ => true end.

#[global] Instance Q_number : Number Q := {|
  num_lt := Q_lt;
  num_le := Q_le;
  num_sum := λ values, fold_left Qplus values (inject_Z 0);
  num_div := Qdiv;
  num_of_int := inject_Z
|}.

(** ** Python values

    The values [json.loads] and [response.json()] produce.  A [dict] keeps its
    insertion order, so it is an association list. *)
Inductive pyval (num : Type) : Type :=
| PNone
| PBool (b : bool)
| PNum (x : num)
| PStr (s : string)
| PList (l : list (pyval num))
| PDict (d : list (string * pyval num)).
Arguments PNone {num}.
Arguments PBool {num} b.
Arguments PNum {num} x.
Arguments PStr {num} s.
Arguments PList {num} l.
Arguments PDict {num} d.

(** [d.get(k)] on the association list: the first binding of [k]. *)
Fixpoint dict_lookup {V : Type} (k : string) (d : list (string * V)) : option V :=
  match d with
  | [] => None
  | (k', v) :: d' => if String.eqb k k' then Some v else dict_lookup k d'
  end.

(** [sub in s] on strings: [sub] occurs in [s]. *)
Fixpoint str_contains (sub s : string) : bool :=
  if String.prefix sub s then true
  else match s with
       | EmptyString => false
       | String _ s' => str_contains sub s'
       end.

Definition is_str {num} (k : string) (v : pyval num) : bool :=
  match v with PStr s => String.eqb k s | _ => false end.

(** [k in data] for a string [k]: key membership on a dict, element
    membership on a list, substring on a string; the other values are not
    iterable and the test raises [TypeError]. *)
Definition py_contains {num} (k : string) (data : pyval num) : outcome bool :=
  match data with
  | PDict d => Ret (match dict_lookup k d with Some _ => true | None => false end)
  | PList l => Ret (existsb (is_str k) l)
  | PStr s => Ret (str_contains k s)
  | PNone | PBool _ | PNum _ => Raise TypeError
  end.

(** [data[k]] for a string [k]: the value on a dict, [KeyError] when the key
    is missing; a list or a string takes integer indices only and the other
    values are not subscriptable: [TypeError]. *)
Definition py_getitem {num} (data : pyval num) (k : string) : outcome (pyval num) :=
  match data with
  | PDict d => match dict_lookup k d with Some v => Ret v | None => Raise KeyError end
  | _ => Raise TypeError
  end.

(** A mapping from currency codes to numbers as a Python value. *)
Definition rates_dict {num} (cr : list (string * num)) : pyval num :=
  PDict (map (λ kv, (kv.1, PNum kv.2)) cr).

Definition as_num {num} (v : pyval num) : option num :=
  match v with PNum x => Some x | _ => None end.

(** [conversion_rates.items()] when [conversion_rates] is a dict whose values
    are all numbers. *)
Definition rates_items {num} (v : pyval num) : option (list (string * num)) :=
  match v with
  | PDict d => mapM (λ kv, x ← as_num kv.2; Some (kv.1, x)) d
  | _ => None
  end.

(** ** The world the program runs in *)

(** An HTTP response as the program reads it: the status code and what its
    [json()] method gives (the decoded body, or the decoding error). *)
Record response (num : Type) : Type := {
  status_code : Z;
  response_json : outcome (pyval num)
}.
Arguments status_code {num} r.
Arguments response_json {num} r.

(** A line printed on the console.  The numbers are kept as numbers: how
    [print] formats them is not modelled. *)
Inductive line (num : Type) : Type :=
| ErrorFetching (e : exn)
| ErrorInserting (e : exn)
| AverageRate (x : num)
| MinimumRate (x : num)
| MaximumRate (x : num)
| MedianRate (x : num)
| CurrenciesInRange (cs : list string).
Arguments ErrorFetching {num} e.
Arguments ErrorInserting {num} e.
Arguments AverageRate {num} x.
Arguments MinimumRate {num} x.
Arguments MaximumRate {num} x.
Arguments MedianRate {num} x.
Arguments CurrenciesInRange {num} cs.

(** A bar chart handed to [plt.show()]. *)
Record chart (num : Type) : Type := {
  bar_x : list string;
  bar_height : list num;
  xlabel : string;
  ylabel : string;
  title : string
}.
Arguments bar_x {num} c.
Arguments bar_height {num} c.
Arguments xlabel {num} c.
Arguments ylabel {num} c.
Arguments title {num} c.

(** The state outside the Python process: the keys of the Redis server and
    whether it can be reached, what the HTTP endpoint answers, how many HTTP
    requests were sent, the console and the charts shown. *)
Record world (num : Type) : Type := {
  keyspace : gmap string string;
  redis_up : bool;
  endpoint : string → outcome (response num);
  requests_sent : nat;
  stdout : list (line num);
  figures : list (chart num)
}.
Arguments keyspace {num} w.
Arguments redis_up {num} w.
Arguments endpoint {num} w.
Arguments requests_sent {num} w.
Arguments stdout {num} w.
Arguments figures {num} w.

(** A computation with effects on the world that may raise. *)
Definition M (num : Type) (A : Type) : Type := world num → outcome A * world num.

Definition ret {num A} (a : A) : M num A := λ w, (Ret a, w).

Definition raise {num A} (e : exn) : M num A := λ w, (Raise e, w).

Definition bind {num A B} (m : M num A) (k : A → M num B) : M num B :=
  λ w, match m w with
       | (Ret a, w') => k a w'
       | (Raise e, w') => (Raise e, w')
       end.

(** An expression without effects, evaluated in place. *)
Definition lift {num A} (o : outcome A) : M num A := λ w, (o, w).

(** [try: body / except classes as e: handler]. *)
Definition try_except {num A} (body : M num A) (classes : exn → bool)
    (handler : exn → M num A) : M num A :=
  λ w, match body w with
       | (Raise e, w') => if classes e then handler e w' else (Raise e, w')
       | r => r
       end.

Declare Scope py_scope.
Delimit Scope py_scope with py.
Notation "x <- m ;; k" := (bind m (λ x, k))
  (at level 100, m at next level, right associativity) : py_scope.
Notation "m ;;; k" := (bind m (λ _, k))
  (at level 100, right associativity) : py_scope.

(** The world after more lines on the console, one more chart shown, one
    more request sent. *)
Definition console_append {num} (ls : list (line num)) (w : world num) : world num :=
  {| keyspace := keyspace w; redis_up := redis_up w; endpoint := endpoint w;
     requests_sent := requests_sent w; stdout := stdout w ++ ls;
     figures := figures w |}.

Definition figure_shown {num} (c : chart num) (w : world num) : world num :=
  {| keyspace := keyspace w; redis_up := redis_up w; endpoint := endpoint w;
     requests_sent := requests_sent w; stdout := stdout w;
     figures := figures w ++ [c] |}.

Definition request_counted {num} (w : world num) : world num :=
  {| keyspace := keyspace w; redis_up := redis_up w; endpoint := endpoint w;
     requests_sent := S (requests_sent w); stdout := stdout w;
     figures := figures w |}.

(** [print(...)]: one more line on the console. *)
Definition print {num} (l : line num) : M num unit :=
  λ w, (Ret (), console_append [l] w).

(** [plt.show()] on the figure built by the calls before it. *)
Definition plt_show {num} (c : chart num) : M num unit :=
  λ w, (Ret (), figure_shown c w).

(** [requests.get(url)]: one request sent; the endpoint answers with a
    response or the transport fails with a [RequestException]. *)
Definition requests_get {num} (url : string) : M num (response num) :=
  λ w, (endpoint w url, request_counted w).

(** [response.raise_for_status()]: an [HTTPError] for the client-error and
    server-error status codes, 400 to 599, and nothing for the others. *)
Definition raise_for_status {num} (r : response num) : M num unit :=
  if bool_decide (400 ≤ status_code r < 600)%Z then raise RequestException
  else ret ().

(** ** The Redis client *)

(** The two methods of the injected client the program calls.  A method
    call is given its positional arguments as the program passes them. *)
Record RedisClient (num : Type) : Type := {
  redis_get : string → M num (option string);
  redis_json_set : list string → M num unit
}.
Arguments redis_get {num} r k.
Arguments redis_json_set {num} r args.

(** The root of a document in RedisJSON path syntax. *)
Definition is_root (path : string) : bool :=
  String.eqb path "." || String.eqb path "$".

Definition set_keyspace {num} (ks : gmap string string) (w : world num) : world num :=
  {| keyspace := ks; redis_up := redis_up w; endpoint := endpoint w;
     requests_sent := requests_sent w; stdout := stdout w; figures := figures w |}.

(** Modelled from the spec: the cache store is not part of the repository;
    section 6 gives its interface as [get(key) -> bytes|null] and
    [set(key, path, json)].  [get] answers with the bytes stored under the key
    or with nothing; a server that cannot be reached is a [RedisError]. *)
Definition redis_py_get {num} (k : string) : M num (option string) :=
  λ w, if redis_up w then (Ret (keyspace w !! k), w) else (Raise RedisError, w).

(** Modelled from the spec: [json().set(name, path, obj)] of the same
    interface.  The three parameters are required, so a call with another
    number of positional arguments raises [TypeError] before anything is sent
    (the optional flags [nx], [xx] and [decode_keys], which the program never
    passes, are left out).  A document is stored whole at the root path; the
    program uses no other path, and the server refuses one on a new key. *)
Definition redis_py_json_set {num} (args : list string) : M num unit :=
  match args with
  | [name; path; obj] =>
      λ w, if redis_up w && is_root path
           then (Ret (), set_keyspace (<[name := obj]> (keyspace w)) w)
           else (Raise RedisError, w)
  | _ => raise TypeError
  end.

Definition redis_py {num} : RedisClient num :=
  {| redis_get := redis_py_get; redis_json_set := redis_py_json_set |}.

(** ** Built-in functions on numbers *)

Section builtins.
Context {num : Type} `{Number num}.

(** [total / n] for a length [n]: [ZeroDivisionError] when [n] is [0]. *)
Definition py_truediv (total : num) (n : nat) : outcome num :=
  match n with
  | O => Raise ZeroDivisionError
  | S _ => Ret (num_div total (num_of_int (Z.of_nat n)))
  end.

(** [min(values)]: [ValueError] on no value; otherwise the first value is
    kept until a later one is [<] it. *)
Definition py_min (values : list num) : outcome num :=
  match values with
  | [] => Raise ValueError
  | x :: rest => Ret (fold_left (λ m item, if num_lt item m then item else m) rest x)
  end.

(** [max(values)]: the same with [item > m], that is [m < item]. *)
Definition py_max (values : list num) : outcome num :=
  match values with
  | [] => Raise ValueError
  | x :: rest => Ret (fold_left (λ m item, if num_lt m item then item else m) rest x)
  end.

(** [sorted(l, key=key)] compares keys with [<] only and is stable.  It is
    modelled by a stable insertion: an element is put before the first
    element of the sorted rest that is not smaller than it, so before the
    equal ones that came after it.  On keys that hold no NaN the result of a
    stable sort is the same for every algorithm ([py_sorted_characterised]). *)
Fixpoint insert_by {A : Type} (key : A → num) (x : A) (l : list A) : list A :=
  match l with
  | [] => [x]
  | y :: l' =>
      if num_lt (key y) (key x) then y :: insert_by key x l' else x :: y :: l'
  end.

Definition py_sorted {A : Type} (key : A → num) (l : list A) : list A :=
  foldr (insert_by key) [] l.

(** [l[i]] for a non-negative index: [IndexError] past the end. *)
Definition py_index {A : Type} (l : list A) (i : nat) : outcome A :=
  match l !! i with
  | Some x => Ret x
  | None => Raise IndexError
  end.

(** [data is not None and 'conversion_rates' in data]. *)
Definition has_conversion_rates (data : pyval num) : outcome bool :=
  match data with
  | PNone => Ret false
  | _ => py_contains "conversion_rates" data
  end.

(** [conversion_rates.items()], read as pairs of a code and a number.  A
    value that is no dict has no [items]: [AttributeError].  A dict with a
    value that is no number is outside the data model; it is refused here
    with the [TypeError] that arithmetic on such a value raises. *)
Definition py_items (conversion_rates : pyval num) : outcome (list (string * num)) :=
  match conversion_rates with
  | PDict _ =>
      match rates_items conversion_rates with
      | Some items => Ret items
      | None => Raise TypeError
      end
  | _ => Raise AttributeError
  end.
End builtins.

(** ** The class [DataProcessor] *)

Record DataProcessor (num : Type) : Type := {
  api_url : string;
  redis_client : RedisClient num
}.
Arguments api_url {num} _.
Arguments redis_client {num} _.

Local Open Scope py_scope.

Section DataProcessor.
Context {num : Type} `{Number num}.

(** The [json] module: [loads] decodes a text or raises, [dumps] encodes a
    value.  The program only passes values through them. *)
Variable json_loads : string → outcome (pyval num).
Variable json_dumps : pyval num → string.

(** [if data:] on the answer of [get]: bytes that are not empty. *)
Definition truthy (data : option string) : bool :=
  match data with
  | Some (String _ _) => true
  | Some EmptyString | None => false
  end.

Definition cached_text (data : option string) : string :=
  match data with Some s => s | None => EmptyString end.

(** The classes of the [except] clause of [fetch_json_from_api]. *)
Definition fetch_catches (e : exn) : bool :=
  match e with
  | RequestException | JSONDecodeError | RedisError => true
  | _ => false
  end.

(** The [try] block of [fetch_json_from_api]. *)
Definition fetch_body (self : DataProcessor num) : M num (pyval num) :=
  data <- redis_get (redis_client self) "exchange_rate_data" ;;
  if truthy data then lift (json_loads (cached_text data))
  else
    response <- requests_get (api_url self) ;;
    raise_for_status response ;;;
    data <- lift (response_json response) ;;
    redis_json_set (redis_client self)
      ["exchange_rate_data"; json_dumps data] ;;;
    ret data.

Definition fetch_json_from_api (self : DataProcessor num) : M num (pyval num) :=
  try_except (fetch_body self) fetch_catches
    (λ e, print (ErrorFetching e) ;;; ret PNone).

(** The [try] block of [insert_into_redis]. *)
Definition insert_body (self : DataProcessor num) (data : pyval num)
    : M num unit :=
  has <- lift (py_contains "conversion_rates" data) ;;
  if has : bool then
    conversion_rates <- lift (py_getitem data "conversion_rates") ;;
    redis_json_set (redis_client self)
      ["exchange_rates"; "."; json_dumps conversion_rates]
  else ret ().

(** [except Exception] catches every class of [exn]. *)
Definition insert_into_redis (self : DataProcessor num) (data : pyval num)
    : M num unit :=
  try_except (insert_body self data) (λ _, true)
    (λ e, print (ErrorInserting e)).

Definition plot_exchange_rates (self : DataProcessor num) : M num unit :=
  data <- fetch_json_from_api self ;;
  ok <- lift (has_conversion_rates data) ;;
  if ok : bool then
    conversion_rates <- lift (py_getitem data "conversion_rates") ;;
    items <- lift (py_items conversion_rates) ;;
    let sorted_rates := py_sorted snd items in
    let currencies := map fst sorted_rates in
    let values := map snd sorted_rates in
    plt_show {| bar_x := currencies; bar_height := values;
                xlabel := "Currency"; ylabel := "Exchange Rate";
                title := "Exchange Rates" |}
  else ret ().

Definition aggregate_exchange_rates (self : DataProcessor num) : M num unit :=
  data <- fetch_json_from_api self ;;
  ok <- lift (has_conversion_rates data) ;;
  if ok : bool then
    conversion_rates <- lift (py_getitem data "conversion_rates") ;;
    items <- lift (py_items conversion_rates) ;;
    let values := map snd items in
    average_rate <- lift (py_truediv (num_sum values) (length items)) ;;
    min_rate <- lift (py_min values) ;;
    max_rate <- lift (py_max values) ;;
    median_rate <- lift (py_index (py_sorted id values) (length items / 2)) ;;
    print (AverageRate average_rate) ;;;
    print (MinimumRate min_rate) ;;;
    print (MaximumRate max_rate) ;;;
    print (MedianRate median_rate)
  else ret ().

Definition search_exchange_rates (self : DataProcessor num)
    (min_value max_value : num) : M num unit :=
  data <- fetch_json_from_api self ;;
  ok <- lift (has_conversion_rates data) ;;
  if ok : bool then
    conversion_rates <- lift (py_getitem data "conversion_rates") ;;
    items <- lift (py_items conversion_rates) ;;
    let filtered_currencies :=
      map fst
        (filter (λ kv, num_le min_value kv.2 && num_le kv.2 max_value = true)
           items) in
    print (CurrenciesInRange filtered_currencies)
  else ret ().
End DataProcessor.

(** ** The script *)

Section script.
Context {arithmetic : Number float}.
Variable json_loads : string → outcome (pyval float).
Variable json_dumps : pyval float → string.

(** The [__main__] block: a processor is built from the endpoint and the
    Redis connection (both configuration, taken as arguments here) and the
    three reports run one after the other, the search from 0.5 to 2.0.  The
    rates are the floats of the interpreter that runs the script. *)
Definition main (url : string) (r : RedisClient float) : M float unit :=
  let processor := {| api_url := url; redis_client := r |} in
  plot_exchange_rates json_loads json_dumps processor ;;;
  aggregate_exchange_rates json_loads json_dumps processor ;;;
  search_exchange_rates json_loads json_dumps processor 0.5%float 2%float.
End script.

(** * The vocabulary of the properties *)

(** ** Ordered numbers *)

(** The laws of [<] and [<=] on the numbers that take part in the order
    ([ordered]): every number but a NaN.  [<] is a strict weak order and [<=]
    is its complement read backwards. *)
Class NumberOrder (num : Type) `{Number num} (ordered : num → bool) : Prop := {
  num_lt_irrefl : ∀ x, num_lt x x = false;
  num_lt_trans : ∀ x y z,
    num_lt x y = true → num_lt y z = true → num_lt x z = true;
  num_nlt_trans : ∀ x y z,
    ordered x = true → ordered y = true → ordered z = true →
    num_lt x y = false → num_lt y z = false → num_lt x z = false;
  num_le_lt : ∀ x y,
    ordered x = true → ordered y = true → num_le x y = negb (num_lt y x)
}.

(** A [float] that is not a NaN. *)
Definition float_ordered (x : float) : bool := negb (PrimFloat.is_nan x).

(** Every rational is ordered. *)
Definition Q_ordered (x : Q) : bool := true.

Section vocabulary.
Context {num : Type} `{Number num}.

(** Two numbers neither of which is [<] the other: equal rates. *)
Definition num_eqv (x y : num) : bool :=
  negb (num_lt x y) && negb (num_lt y x).

(** [a] may stand before [b] in ascending order of the key. *)
Definition ascending {A : Type} (key : A → num) (a b : A) : Prop :=
  num_le (key a) (key b) = true.

(** The entries whose key equals [r], in the order of the list. *)
Definition with_rate {A : Type} (key : A → num) (r : num) (l : list A) : list A :=
  filter (λ a, num_eqv r (key a) = true) l.

(** The range test of the specification: [min <= r <= max]. *)
Definition in_range (min_value max_value r : num) : Prop :=
  num_le min_value r = true ∧ num_le r max_value = true.
End vocabulary.

(** ** The sum of floats, step by step *)

(** [total] is reached from [acc] by adding the values in turn, each
    addition rounded to binary64. *)
Inductive added_in_turn : float → list float → float → Prop :=
| added_none (acc : float) : added_in_turn acc [] acc
| added_next (acc x : float) (rest : list float) (total : float) :
    added_in_turn (acc + x)%float rest total →
    added_in_turn acc (x :: rest) total.

(** Neumaier's summation: beside the running sum [s] a compensation [c]
    gathers the rounding error of every addition, read off the operand of
    larger magnitude; [s'] and [c'] are the two after the values. *)
Inductive compensated_in_turn
    : float → float → list float → float → float → Prop :=
| compensated_none (s c : float) : compensated_in_turn s c [] s c
| compensated_sum_larger (s c x : float) (rest : list float) (s' c' : float) :
    PrimFloat.leb (PrimFloat.abs x) (PrimFloat.abs s) = true →
    compensated_in_turn (s + x)%float (c + ((s - (s + x)) + x))%float rest s' c' →
    compensated_in_turn s c (x :: rest) s' c'
| compensated_value_larger (s c x : float) (rest : list float) (s' c' : float) :
    PrimFloat.leb (PrimFloat.abs x) (PrimFloat.abs s) = false →
    compensated_in_turn (s + x)%float (c + ((x - (s + x)) + s))%float rest s' c' →
    compensated_in_turn s c (x :: rest) s' c'.

(** [total] is the sum of the values as the interpreter of the given
    summation computes it.  Under compensation the first value starts the
    running sum, and the compensation is added at the end when it is neither
    zero nor infinite nor NaN. *)
Definition float_total (s : summation) (values : list float) (total : float)
    : Prop :=
  match s with
  | LeftToRight => added_in_turn 0%float values total
  | Compensated =>
      match values with
      | [] => total = 0%float
      | x :: rest =>
          ∃ s' c', compensated_in_turn (0 + x)%float 0%float rest s' c'
                   ∧ total = if negb (PrimFloat.is_zero c') && PrimFloat.is_finite c'
                             then (s' + c')%float else s'
      end
  end.

(** A processor on the Redis client of the specification. *)
Definition on_redis_py {num} (url : string) : DataProcessor num :=
  {| api_url := url; redis_client := redis_py |}.

(** ** Documents, a codec and worlds for the concrete runs *)

(** A snapshot of the provider with the given rates. *)
Definition snapshot_fields (rates : list (string * float))
    : list (string * pyval float) :=
  [("result", PStr "success"); ("base_code", PStr "USD");
   ("conversion_rates", rates_dict rates)].

Definition snapshot (rates : list (string * float)) : pyval float :=
  PDict (snapshot_fields rates).

(** The mapping of the range-search example of the specification. *)
Definition five_rates : list (string * float) :=
  [("A", 0.4%float); ("B", 0.5%float); ("C", 1%float); ("D", 2%float);
   ("E", 2.1%float)].

(** Four rates whose ascending order is 1, 2, 3, 4, in a mapping order that
    is not sorted. *)
Definition four_rates : list (string * float) :=
  [("EUR", 3%float); ("USD", 1%float); ("PLN", 4%float); ("BGN", 2%float)].


(** Three rates whose additions are rounded. *)
Definition tenth_rates : list (string * float) :=
  [("AAA", 0.1%float); ("BBB", 0.2%float); ("CCC", 0.3%float)].

(** Two currencies at the same rate around a smaller one. *)
Definition tied_rates : list (string * float) :=
  [("USD", 1%float); ("AED", 0.5%float); ("PAB", 1%float)].

(** The codec on one document: [snapshot_text] stands for the JSON text of
    [doc]. *)
Definition snapshot_text : string := "<snapshot>".

Definition loads_of (doc : pyval float) (text : string) : outcome (pyval float) :=
  if String.eqb text snapshot_text then Ret doc else Raise JSONDecodeError.

Definition dumps_of (doc : pyval float) : string := snapshot_text.

(** A world whose cache holds the text of the snapshot. *)
Definition cached_world : world float :=
  {| keyspace := {["exchange_rate_data" := snapshot_text]}; redis_up := true;
     endpoint := λ _, Raise RequestException; requests_sent := 0;
     stdout := []; figures := [] |}.

(** A world with an empty cache and an endpoint with one answer. *)
Definition empty_cache_world (answer : outcome (response float)) : world float :=
  {| keyspace := ∅; redis_up := true; endpoint := λ _, answer;
     requests_sent := 0; stdout := []; figures := [] |}.

(** A world whose Redis server cannot be reached. *)
Definition redis_down_world : world float :=
  {| keyspace := ∅; redis_up := false; endpoint := λ _, Raise RequestException;
     requests_sent := 0; stdout := []; figures := [] |}.

Definition processor : DataProcessor float :=
  on_redis_py "https://api.example/latest/USD".

Definition ok_response (doc : pyval float) : response float :=
  {| status_code := 200; response_json := Ret doc |}.

Definition not_found_response : response float :=
  {| status_code := 404; response_json := Raise JSONDecodeError |}.

(** A 300 answer, "Multiple Choices", that carries a JSON body. *)
Definition multiple_choices_response (doc : pyval float) : response float :=
  {| status_code := 300; response_json := Ret doc |}.

(** What the [except] clause of [fetch_json_from_api] makes of an exception
    raised in the world [w]: the three classes it names are printed and give
    [None], every other exception passes. *)
Definition fetch_handled {num} (e : exn) (w : world num)
    : outcome (pyval num) * world num :=
  if fetch_catches e then (Ret PNone, console_append [ErrorFetching e] w)
  else (Raise e, w).

(** A world whose cache holds a text that is no JSON. *)
Definition corrupt_cache_world : world float :=
  {| keyspace := {["exchange_rate_data" := "<html>"]}; redis_up := true;
     endpoint := λ _, Raise RequestException; requests_sent := 0;
     stdout := []; figures := [] |}.

(** A 200 answer whose body is no JSON. *)
Definition garbled_response : response float :=
  {| status_code := 200; response_json := Raise JSONDecodeError |}.

(** A document of the provider that reports an error and has no rates. *)
Definition error_fields : list (string * pyval float) :=
  [("result", PStr "error"); ("error-type", PStr "invalid-key")].

(** A document whose conversion_rates is [null]. *)
Definition null_rates_fields : list (string * pyval float) :=
  [("result", PStr "success"); ("conversion_rates", PNone)].

(** * Properties *)

(** ** The order of numbers *)

Section order.
Context {num : Type} {ordered : num → bool} `{NumberOrder num ordered}.

Lemma num_lt_asym (x y : num) : num_lt x y = true → num_lt y x = false.
Proof.
  intros Hxy. destruct (num_lt y x) eqn:Hyx; [|done].
  pose proof (num_lt_trans _ _ _ Hxy Hyx) as Hxx.
  by rewrite num_lt_irrefl in Hxx.
Qed.

Lemma num_le_trans (x y z : num) :
  ordered x = true → ordered y = true → ordered z = true →
  num_le x y = true → num_le y z = true → num_le x z = true.
Proof.
  intros Hx Hy Hz. rewrite !num_le_lt, !negb_true_iff by done.
  intros Hyx Hzy. by apply (num_nlt_trans z y x).
Qed.

Lemma num_eqv_not_lt (r x y : num) :
  ordered r = true → ordered x = true → ordered y = true →
  num_eqv r x = true → num_eqv r y = true → num_lt y x = false.
Proof.
  intros Hr Hx Hy. unfold num_eqv. rewrite !andb_true_iff, !negb_true_iff.
  intros [Hrx _] [_ Hyr]. by apply (num_nlt_trans y r x).
Qed.

Lemma forallb_ordered (values : list num) :
  forallb ordered values = true → Forall (λ v, ordered v = true) values.
Proof.
  intros Hall. apply Forall_forall. intros v Hv%list_elem_of_In.
  by apply (proj1 (forallb_forall _ _) Hall).
Qed.
End order.

(** ** [sorted] sorts, and is stable *)

Section sorting.
Context {num : Type} {ordered : num → bool} `{NumberOrder num ordered}.
Context {A : Type} (key : A → num).

(** The elements whose keys take part in the order. *)
Local Abbreviation keys_ordered := (Forall (λ a, ordered (key a) = true)).

(** What the insertion compares: the later element is not [<] the earlier. *)
Local Abbreviation not_after := (λ a b, num_lt (key b) (key a) = false).

Lemma insert_by_Permutation (x : A) (l : list A) : insert_by key x l ≡ₚ x :: l.
Proof.
  induction l as [|y l IH]; simpl; [done|].
  destruct (num_lt (key y) (key x)); [|done].
  rewrite IH. apply Permutation_swap.
Qed.

Lemma py_sorted_Permutation (l : list A) : py_sorted key l ≡ₚ l.
Proof.
  induction l as [|x l IH]; simpl; [done|].
  rewrite insert_by_Permutation. by rewrite IH.
Qed.

Lemma insert_by_HdRel (a x : A) (l : list A) :
  not_after a x → HdRel not_after a l → HdRel not_after a (insert_by key x l).
Proof.
  intros Hax Hal. destruct l as [|y l]; simpl; [by constructor|].
  destruct (num_lt (key y) (key x)); constructor; [|done].
  by inversion Hal.
Qed.

Lemma insert_by_Sorted (x : A) (l : list A) :
  Sorted not_after l → Sorted not_after (insert_by key x l).
Proof.
  induction 1 as [|y l Hl IH Hy]; simpl; [by repeat constructor|].
  destruct (num_lt (key y) (key x)) eqn:Hyx.
  - constructor; [done|]. apply insert_by_HdRel; [|done].
    by apply num_lt_asym.
  - constructor; [by constructor|]. by constructor.
Qed.

Lemma py_sorted_Sorted (l : list A) : Sorted not_after (py_sorted key l).
Proof.
  induction l as [|x l IH]; simpl; [constructor|]. by apply insert_by_Sorted.
Qed.

(** On ordered keys adjacent order is order throughout. *)
Lemma Sorted_ascending (l : list A) :
  keys_ordered l → Sorted not_after l → StronglySorted (ascending key) l.
Proof.
  intros Hord Hsorted. induction Hsorted as [|a l Hl IH Ha]; [constructor|].
  apply Forall_cons in Hord as [Hoa Hol]. specialize (IH Hol).
  constructor; [done|].
  destruct Ha as [|b l' Hab]; [constructor|].
  apply Forall_cons in Hol as [Hob Hol'].
  apply StronglySorted_inv in IH as [_ Hb].
  assert (Hle : ascending key a b).
  { unfold ascending. by rewrite num_le_lt, Hab. }
  constructor; [done|].
  rewrite Forall_forall in Hol', Hb. apply Forall_forall. intros c Hc.
  unfold ascending in *. apply (num_le_trans _ (key b)); auto.
Qed.

Lemma py_sorted_ascending (l : list A) :
  keys_ordered l → StronglySorted (ascending key) (py_sorted key l).
Proof.
  intros Hord. apply Sorted_ascending; [|apply py_sorted_Sorted].
  by rewrite py_sorted_Permutation.
Qed.

Lemma insert_by_with_rate (r : num) (x : A) (l : list A) :
  ordered r = true → keys_ordered (x :: l) →
  with_rate key r (insert_by key x l) = with_rate key r (x :: l).
Proof.
  intros Hr [Hx Hl]%Forall_cons. unfold with_rate.
  induction Hl as [|y l Hy Hl IH]; simpl; [done|].
  destruct (num_lt (key y) (key x)) eqn:Hyx; [|done].
  rewrite (filter_cons _ y), IH, !filter_cons.
  destruct (decide (num_eqv r (key y) = true)) as [Hry|Hry];
    destruct (decide (num_eqv r (key x) = true)) as [Hrx|Hrx]; try done.
  pose proof (num_eqv_not_lt r (key x) (key y) Hr Hx Hy Hrx Hry). congruence.
Qed.

(** For every rate the entries at that rate come out of [sorted] in the
    order they went in. *)
Lemma py_sorted_stable (r : num) (l : list A) :
  ordered r = true → keys_ordered l →
  with_rate key r (py_sorted key l) = with_rate key r l.
Proof.
  intros Hr Hl. induction Hl as [|x l Hx Hl IH]; simpl; [done|].
  rewrite insert_by_with_rate; [|done|].
  - unfold with_rate in *. by rewrite !filter_cons, IH.
  - constructor; [done|]. by rewrite py_sorted_Permutation.
Qed.

Lemma py_sorted_length (l : list A) : length (py_sorted key l) = length l.
Proof. apply Permutation_length, py_sorted_Permutation. Qed.

Lemma with_rate_cons (r : num) (a : A) (l : list A) :
  with_rate key r (a :: l)
  = if num_eqv r (key a) then a :: with_rate key r l else with_rate key r l.
Proof.
  unfold with_rate. rewrite filter_cons.
  destruct (num_eqv r (key a)); by case_decide.
Qed.

Lemma with_rate_own_key (a : A) (l : list A) :
  with_rate key (key a) (a :: l) = a :: with_rate key (key a) l.
Proof. rewrite with_rate_cons. unfold num_eqv. by rewrite num_lt_irrefl. Qed.

Lemma with_rate_elem_of (r : num) (a : A) (l : list A) :
  a ∈ with_rate key r l → a ∈ l.
Proof. unfold with_rate. by intros [_ ?]%list_elem_of_filter. Qed.

(** The head of an ascending list is not [<] by any element. *)
Lemma ascending_head (a b : A) (l : list A) :
  keys_ordered (a :: l) →
  StronglySorted (ascending key) (a :: l) → b ∈ a :: l →
  num_lt (key b) (key a) = false.
Proof.
  intros Hord [_ Hall]%StronglySorted_inv [->|Hb]%elem_of_cons.
  - apply num_lt_irrefl.
  - rewrite Forall_forall in Hord, Hall. specialize (Hall b Hb).
    unfold ascending in Hall. rewrite num_le_lt in Hall.
    + by apply negb_true_iff.
    + apply Hord. left.
    + apply Hord. by right.
Qed.

(** Two ascending lists with the same entries at every rate, in the same
    order, are one list: on ordered keys the result of a stable sort does not
    depend on the algorithm. *)
Lemma stable_sorted_unique (l1 l2 : list A) :
  keys_ordered l1 → keys_ordered l2 →
  StronglySorted (ascending key) l1 → StronglySorted (ascending key) l2 →
  (∀ r, ordered r = true → with_rate key r l1 = with_rate key r l2) →
  l1 = l2.
Proof.
  revert l2. induction l1 as [|a l1 IH]; intros [|b l2] Ho1 Ho2 Hs1 Hs2 Hrate.
  - done.
  - apply Forall_cons in Ho2 as [Hb _]. specialize (Hrate (key b) Hb).
    by rewrite with_rate_own_key in Hrate.
  - apply Forall_cons in Ho1 as [Ha _]. specialize (Hrate (key a) Ha).
    by rewrite with_rate_own_key in Hrate.
  - pose proof Ho1 as [Ha Ho1']%Forall_cons.
    pose proof Ho2 as [Hb Ho2']%Forall_cons.
    assert (Hab : num_lt (key a) (key b) = false).
    { apply (ascending_head b a l2 Ho2 Hs2).
      apply (with_rate_elem_of (key a)). rewrite <- Hrate by done.
      rewrite with_rate_own_key. left. }
    assert (Hba : num_lt (key b) (key a) = false).
    { apply (ascending_head a b l1 Ho1 Hs1).
      apply (with_rate_elem_of (key b)). rewrite Hrate by done.
      rewrite with_rate_own_key. left. }
    pose proof (Hrate (key a) Ha) as Hhead.
    rewrite with_rate_own_key, with_rate_cons in Hhead.
    unfold num_eqv at 1 in Hhead. rewrite Hab, Hba in Hhead. simpl in Hhead.
    injection Hhead as <- _. f_equal.
    apply StronglySorted_inv in Hs1 as [Hs1 _].
    apply StronglySorted_inv in Hs2 as [Hs2 _].
    apply IH; try done. intros r Hr. specialize (Hrate r Hr).
    rewrite !with_rate_cons in Hrate.
    destruct (num_eqv r (key a)); [by injection Hrate|done].
Qed.

(** Whatever stable sort the interpreter uses, on ordered keys its result
    is the list [py_sorted] gives. *)
Lemma py_sorted_characterised (l l' : list A) :
  keys_ordered l → l' ≡ₚ l →
  StronglySorted (ascending key) l' →
  (∀ r, ordered r = true → with_rate key r l' = with_rate key r l) →
  l' = py_sorted key l.
Proof.
  intros Hord Hperm Hsorted Hstable.
  apply stable_sorted_unique; try done.
  - by rewrite Hperm.
  - by rewrite py_sorted_Permutation.
  - by apply py_sorted_ascending.
  - intros r Hr. rewrite Hstable by done. symmetry. by apply py_sorted_stable.
Qed.
End sorting.

(** ** [min] and [max] give the extrema *)

Section extrema.
Context {num : Type} {ordered : num → bool} `{NumberOrder num ordered}.

Local Abbreviation all_ordered := (Forall (λ v : num, ordered v = true)).

Lemma fold_min_spec (rest : list num) (acc : num) :
  all_ordered (acc :: rest) →
  let m := fold_left (λ m item, if num_lt item m then item else m) rest acc in
  m ∈ acc :: rest ∧ num_lt acc m = false ∧ ∀ v, v ∈ rest → num_lt v m = false.
Proof.
  revert acc. induction rest as [|item rest IH]; intros acc Hord; simpl.
  { split; [left|]. split; [apply num_lt_irrefl|]. by intros v ?%elem_of_nil. }
  apply Forall_cons in Hord as [Hacc [Hitem Hrest]%Forall_cons].
  destruct (num_lt item acc) eqn:Hia.
  - destruct (IH item) as (Hin & Hlt & Hall); [by constructor|].
    assert (Hm : ordered (fold_left (λ m item, if num_lt item m then item else m)
                            rest item) = true).
    { eapply (proj1 (Forall_forall (λ v, ordered v = true) _)); [|exact Hin].
      by constructor. }
    split; [by right|]. split.
    + apply (num_nlt_trans _ item); [done..|by apply num_lt_asym|done].
    + intros v [->|Hv]%elem_of_cons; [done|by apply Hall].
  - destruct (IH acc) as (Hin & Hlt & Hall); [by constructor|].
    assert (Hm : ordered (fold_left (λ m item, if num_lt item m then item else m)
                            rest acc) = true).
    { eapply (proj1 (Forall_forall (λ v, ordered v = true) _)); [|exact Hin].
      by constructor. }
    split.
    + apply elem_of_cons in Hin as [->|Hin]; [left|right; by right].
    + split; [done|].
      intros v [->|Hv]%elem_of_cons; [|by apply Hall].
      by apply (num_nlt_trans _ acc).
Qed.

Lemma fold_max_spec (rest : list num) (acc : num) :
  all_ordered (acc :: rest) →
  let m := fold_left (λ m item, if num_lt m item then item else m) rest acc in
  m ∈ acc :: rest ∧ num_lt m acc = false ∧ ∀ v, v ∈ rest → num_lt m v = false.
Proof.
  revert acc. induction rest as [|item rest IH]; intros acc Hord; simpl.
  { split; [left|]. split; [apply num_lt_irrefl|]. by intros v ?%elem_of_nil. }
  apply Forall_cons in Hord as [Hacc [Hitem Hrest]%Forall_cons].
  destruct (num_lt acc item) eqn:Hai.
  - destruct (IH item) as (Hin & Hlt & Hall); [by constructor|].
    assert (Hm : ordered (fold_left (λ m item, if num_lt m item then item else m)
                            rest item) = true).
    { eapply (proj1 (Forall_forall (λ v, ordered v = true) _)); [|exact Hin].
      by constructor. }
    split; [by right|]. split.
    + apply (num_nlt_trans _ item); [done..|by apply num_lt_asym].
    + intros v [->|Hv]%elem_of_cons; [done|by apply Hall].
  - destruct (IH acc) as (Hin & Hlt & Hall); [by constructor|].
    assert (Hm : ordered (fold_left (λ m item, if num_lt m item then item else m)
                            rest acc) = true).
    { eapply (proj1 (Forall_forall (λ v, ordered v = true) _)); [|exact Hin].
      by constructor. }
    split.
    + apply elem_of_cons in Hin as [->|Hin]; [left|right; by right].
    + split; [done|].
      intros v [->|Hv]%elem_of_cons; [|by apply Hall].
      by apply (num_nlt_trans _ acc).
Qed.

(** [min] of non-empty ordered values is one of them and [<=] all of them. *)
Lemma py_min_least (values : list num) :
  values ≠ [] → all_ordered values →
  ∃ m, py_min values = Ret m ∧ m ∈ values ∧ ∀ v, v ∈ values → num_le m v = true.
Proof.
  destruct values as [|x rest]; [done|]. intros _ Hord. eexists. split; [done|].
  destruct (fold_min_spec rest x Hord) as (Hin & Hlt & Hall). split; [done|].
  rewrite Forall_forall in Hord.
  intros v Hv. rewrite num_le_lt, negb_true_iff by auto.
  apply elem_of_cons in Hv as [->|Hv]; [done|by apply Hall].
Qed.

(** [max] of non-empty ordered values is one of them and [>=] all of them. *)
Lemma py_max_greatest (values : list num) :
  values ≠ [] → all_ordered values →
  ∃ m, py_max values = Ret m ∧ m ∈ values ∧ ∀ v, v ∈ values → num_le v m = true.
Proof.
  destruct values as [|x rest]; [done|]. intros _ Hord. eexists. split; [done|].
  destruct (fold_max_spec rest x Hord) as (Hin & Hlt & Hall). split; [done|].
  rewrite Forall_forall in Hord.
  intros v Hv. rewrite num_le_lt, negb_true_iff by auto.
  apply elem_of_cons in Hv as [->|Hv]; [done|by apply Hall].
Qed.
End extrema.

(** ** Floats that are not NaN, and rationals, are ordered numbers *)

(** The comparison of two floats is the comparison of their IEEE
    descriptions, [SFcompare]: a case analysis on the kinds and signs, and on
    exponents and mantissas for two finite numbers of one sign. *)
Ltac compare_cases :=
  repeat match goal with
  | |- context [Z.compare ?a ?b] => destruct (Z.compare_spec a b)
  | |- context [Pos.compare_cont Eq ?a ?b] =>
      change (Pos.compare_cont Eq a b) with (Pos.compare a b);
      destruct (Pos.compare_spec a b)
  end.

Lemma SFltb_irrefl (x : spec_float) : SFltb x x = false.
Proof.
  unfold SFltb, SFcompare. destruct x as [[]|[]| |[] m e]; try reflexivity;
    compare_cases; simpl; try reflexivity; lia.
Qed.

Lemma SFltb_trans (x y z : spec_float) :
  SFltb x y = true → SFltb y z = true → SFltb x z = true.
Proof.
  unfold SFltb, SFcompare.
  destruct x as [[]|[]| |[] mx ex], y as [[]|[]| |[] my ey],
    z as [[]|[]| |[] mz ez];
    simpl; try congruence; compare_cases; simpl; try congruence; lia.
Qed.

Lemma SFltb_negative_trans (x y z : spec_float) :
  x ≠ S754_nan → y ≠ S754_nan → z ≠ S754_nan →
  SFltb x y = false → SFltb y z = false → SFltb x z = false.
Proof.
  unfold SFltb, SFcompare.
  destruct x as [[]|[]| |[] mx ex], y as [[]|[]| |[] my ey],
    z as [[]|[]| |[] mz ez];
    simpl; try congruence; compare_cases; simpl; try congruence; lia.
Qed.

Lemma SFleb_SFltb (x y : spec_float) :
  x ≠ S754_nan → y ≠ S754_nan → SFleb x y = negb (SFltb y x).
Proof.
  unfold SFleb, SFltb, SFcompare.
  destruct x as [[]|[]| |[] mx ex], y as [[]|[]| |[] my ey];
    simpl; try congruence; compare_cases; simpl; try congruence; lia.
Qed.

Lemma float_ordered_not_nan (x : float) :
  float_ordered x = true → Prim2SF x ≠ S754_nan.
Proof.
  unfold float_ordered, PrimFloat.is_nan. rewrite negb_involutive.
  rewrite FloatAxioms.eqb_spec. intros Heq Hnan. by rewrite Hnan in Heq.
Qed.

Lemma float_order_of (s : summation) :
  @NumberOrder float (float_number_of s) float_ordered.
Proof.
  split; simpl.
  - intros x. rewrite FloatAxioms.ltb_spec. apply SFltb_irrefl.
  - intros x y z. rewrite !FloatAxioms.ltb_spec. apply SFltb_trans.
  - intros x y z Hx Hy Hz. rewrite !FloatAxioms.ltb_spec.
    apply SFltb_negative_trans; by apply float_ordered_not_nan.
  - intros x y Hx Hy. rewrite FloatAxioms.leb_spec, FloatAxioms.ltb_spec.
    apply SFleb_SFltb; by apply float_ordered_not_nan.
Qed.

#[global] Instance float_order : NumberOrder float float_ordered :=
  float_order_of LeftToRight.

Lemma Q_lt_true (x y : Q) : Q_lt x y = true ↔ (x < y)%Q.
Proof.
  unfold Q_lt. rewrite Qlt_alt. destruct (x ?= y)%Q; split; congruence.
Qed.

Lemma Q_lt_false (x y : Q) : Q_lt x y = false ↔ (y <= x)%Q.
Proof.
  rewrite <- not_true_iff_false, Q_lt_true. split.
  - apply Qnot_lt_le.
  - apply Qle_not_lt.
Qed.

#[global] Instance Q_order : NumberOrder Q Q_ordered.
Proof.
  split.
  - intros x. apply Q_lt_false, Qle_refl.
  - intros x y z. simpl. rewrite !Q_lt_true. apply Qlt_trans.
  - intros x y z _ _ _. simpl. rewrite !Q_lt_false. intros Hyx Hzy.
    by apply (Qle_trans _ y).
  - intros x y _ _. unfold num_le, num_lt; simpl. unfold Q_le, Q_lt.
    rewrite <- (Qcompare_antisym x y). by destruct (x ?= y)%Q.
Qed.

(** On exact numbers the quotient that [aggregate_exchange_rates] prints
    is the arithmetic mean: times the count it is the sum. *)
Lemma Q_sum_from (values : list Q) (start : Q) :
  (fold_left Qplus values start == start + fold_right Qplus 0 values)%Q.
Proof.
  revert start. induction values as [|v values IH]; intros start; simpl.
  - by rewrite Qplus_0_r.
  - rewrite IH. symmetry. apply Qplus_assoc.
Qed.

Lemma Q_average_is_mean (values : list Q) :
  values ≠ [] →
  ∃ average,
    py_truediv (num_sum values) (length values) = Ret average
    ∧ (average * inject_Z (Z.of_nat (length values))
       == fold_right Qplus 0 values)%Q.
Proof.
  intros Hne. destruct (length values) as [|n] eqn:Hlen; [by destruct values|].
  eexists. split; [done|]. simpl.
  rewrite Qmult_comm, Qmult_div_r, Q_sum_from.
  - by rewrite Qplus_0_l.
  - change 0%Q with (inject_Z 0). rewrite inject_Z_injective. lia.
Qed.

(** ** Reading a mapping of rates *)

Lemma rates_items_rates_dict {num} (cr : list (string * num)) :
  rates_items (rates_dict cr) = Some cr.
Proof.
  unfold rates_items, rates_dict. apply mapM_Some.
  induction cr as [|[k v] cr IH]; simpl; constructor; done.
Qed.

Lemma py_items_rates_dict {num} (cr : list (string * num)) :
  py_items (rates_dict cr) = Ret cr.
Proof. unfold py_items. by rewrite rates_items_rates_dict. Qed.

Lemma has_conversion_rates_dict {num} (d : list (string * pyval num)) v :
  dict_lookup "conversion_rates" d = Some v →
  has_conversion_rates (PDict d) = Ret true
  ∧ py_getitem (PDict d) "conversion_rates" = Ret v.
Proof. intros Hd. simpl. by rewrite Hd. Qed.

(** ** The console and the world *)

Lemma console_append_app {num} (l1 l2 : list (line num)) (w : world num) :
  console_append l2 (console_append l1 w) = console_append (l1 ++ l2) w.
Proof. unfold console_append; simpl. by rewrite app_assoc. Qed.

(** ** The reports on an available mapping *)

Section reports.
Context {num : Type} {ordered : num → bool} `{NumberOrder num ordered}.
Variable json_loads : string → outcome (pyval num).
Variable json_dumps : pyval num → string.

(** The median index is inside a non-empty list. *)
Lemma median_index_in_range (values : list num) :
  values ≠ [] →
  ∃ median, py_index (py_sorted id values) (length values / 2) = Ret median
            ∧ py_sorted id values !! (length values / 2) = Some median.
Proof.
  intros Hne. unfold py_index.
  destruct (lookup_lt_is_Some_2 (py_sorted id values) (length values / 2))
    as [median Hmedian].
  - rewrite py_sorted_length. destruct values; [done|].
    apply Nat.div_lt; simpl; lia.
  - exists median. by rewrite Hmedian.
Qed.

(** What [aggregate_exchange_rates] prints on a non-empty mapping. *)
Lemma aggregate_report self w w1 d (cr : list (string * num)) :
  fetch_json_from_api json_loads json_dumps self w = (Ret (PDict d), w1) →
  dict_lookup "conversion_rates" d = Some (rates_dict cr) →
  cr ≠ [] →
  let values := map snd cr in
  ∃ minimum maximum median,
    py_min values = Ret minimum
    ∧ py_max values = Ret maximum
    ∧ py_sorted id values !! (length values / 2) = Some median
    ∧ aggregate_exchange_rates json_loads json_dumps self w =
        (Ret (), console_append
                   [AverageRate (num_div (num_sum values)
                                   (num_of_int (Z.of_nat (length values))));
                    MinimumRate minimum; MaximumRate maximum;
                    MedianRate median] w1).
Proof.
  intros Hfetch Hd Hne values.
  assert (Hvalues : values ≠ []) by (subst values; by destruct cr).
  destruct (median_index_in_range values Hvalues) as (median & Hidx & Hmedian).
  assert (∃ minimum, py_min values = Ret minimum) as [minimum Hmin].
  { destruct values; [done|]. by eexists. }
  assert (∃ maximum, py_max values = Ret maximum) as [maximum Hmax].
  { destruct values; [done|]. by eexists. }
  exists minimum, maximum, median. repeat split; try done.
  destruct (has_conversion_rates_dict d _ Hd) as [Hhas Hget].
  assert (Hlen : length cr = length values) by (subst values; by rewrite length_map).
  unfold aggregate_exchange_rates, bind, lift. rewrite Hfetch, Hhas, Hget.
  rewrite py_items_rates_dict. fold values. rewrite Hlen, Hmin, Hmax, Hidx.
  destruct (length values) as [|n] eqn:Hn; [by destruct values|].
  simpl. unfold print. by rewrite !console_append_app.
Qed.

(** C1: on a document whose conversion_rates mapping is non-empty (and
    holds no NaN), [aggregate_exchange_rates] prints as the median the value
    at index [floor(n/2)] of the rate values sorted ascending, [n] being the
    size of the mapping; for an even [n] this is the upper of the two middle
    values. *)
Theorem aggregate_median_upper_middle self w w1 d (cr : list (string * num)) :
  fetch_json_from_api json_loads json_dumps self w = (Ret (PDict d), w1) →
  dict_lookup "conversion_rates" d = Some (rates_dict cr) →
  cr ≠ [] →
  forallb ordered (map snd cr) = true →
  ∃ average minimum maximum median sorted_values,
    aggregate_exchange_rates json_loads json_dumps self w =
      (Ret (), console_append
                 [AverageRate average; MinimumRate minimum;
                  MaximumRate maximum; MedianRate median] w1)
    ∧ sorted_values ≡ₚ map snd cr
    ∧ StronglySorted (ascending id) sorted_values
    ∧ sorted_values !! (length cr / 2) = Some median.
Proof.
  intros Hfetch Hd Hne Hord%forallb_ordered.
  destruct (aggregate_report self w w1 d cr Hfetch Hd Hne)
    as (minimum & maximum & median & _ & _ & Hmedian & Hrun).
  eexists _, minimum, maximum, median, (py_sorted id (map snd cr)).
  split; [exact Hrun|]. split; [apply py_sorted_Permutation|].
  split; [by apply (py_sorted_ascending id)|].
  by rewrite length_map in Hmedian.
Qed.

(** C4: on an available conversion_rates mapping and for every pair of
    bounds, [search_exchange_rates] prints exactly the currency codes whose
    rate [r] satisfies [min_value <= r <= max_value], both ends included, in
    the iteration order of the mapping. *)
Theorem search_reports_codes_in_range self (min_value max_value : num) w w1 d
    (cr : list (string * num)) :
  fetch_json_from_api json_loads json_dumps self w = (Ret (PDict d), w1) →
  dict_lookup "conversion_rates" d = Some (rates_dict cr) →
  ∃ codes,
    search_exchange_rates json_loads json_dumps self min_value max_value w =
      (Ret (), console_append [CurrenciesInRange codes] w1)
    ∧ codes = map fst (filter (λ kv, in_range min_value max_value kv.2) cr)
    ∧ (∀ c, c ∈ codes ↔ ∃ r, (c, r) ∈ cr ∧ in_range min_value max_value r)
    ∧ codes `sublist_of` map fst cr.
Proof.
  intros Hfetch Hd.
  destruct (has_conversion_rates_dict d _ Hd) as [Hhas Hget].
  assert (Hfilter :
    filter (λ kv : string * num,
              num_le min_value kv.2 && num_le kv.2 max_value = true) cr
    = filter (λ kv, in_range min_value max_value kv.2) cr).
  { apply list_filter_iff. intros kv. unfold in_range.
    by rewrite andb_true_iff. }
  eexists. split.
  - unfold search_exchange_rates, bind, lift. rewrite Hfetch, Hhas, Hget.
    rewrite py_items_rates_dict. unfold print. by rewrite Hfilter.
  - split; [done|]. split.
    + intros c. rewrite list_elem_of_fmap. split.
      * intros ([c' r] & -> & Hin). apply list_elem_of_filter in Hin as [Hr Hin].
        by exists r.
      * intros (r & Hin & Hr). exists (c, r). split; [done|].
        by apply list_elem_of_filter.
    + apply (fmap_sublist fst), sublist_filter.
Qed.

(** C7: on an available conversion_rates mapping (that holds no NaN),
    [plot_exchange_rates] draws the bars of the entries of the mapping in
    ascending order of the rate, and the entries at one rate keep the order
    they have in the mapping. *)
Theorem plot_sorts_by_rate_stably self w w1 d (cr : list (string * num)) :
  fetch_json_from_api json_loads json_dumps self w = (Ret (PDict d), w1) →
  dict_lookup "conversion_rates" d = Some (rates_dict cr) →
  forallb ordered (map snd cr) = true →
  ∃ entries,
    plot_exchange_rates json_loads json_dumps self w =
      (Ret (), figure_shown
                 {| bar_x := map fst entries; bar_height := map snd entries;
                    xlabel := "Currency"; ylabel := "Exchange Rate";
                    title := "Exchange Rates" |} w1)
    ∧ entries ≡ₚ cr
    ∧ StronglySorted (ascending snd) entries
    ∧ ∀ r, ordered r = true → with_rate snd r entries = with_rate snd r cr.
Proof.
  intros Hfetch Hd Hord%forallb_ordered. apply Forall_fmap in Hord.
  destruct (has_conversion_rates_dict d _ Hd) as [Hhas Hget].
  exists (py_sorted snd cr). split.
  - unfold plot_exchange_rates, bind, lift. rewrite Hfetch, Hhas, Hget.
    by rewrite py_items_rates_dict.
  - split; [apply py_sorted_Permutation|].
    split; [by apply (py_sorted_ascending snd)|].
    intros r Hr. by apply py_sorted_stable.
Qed.

(** C8: when [fetch_json_from_api] returns [None], each of
    [plot_exchange_rates], [aggregate_exchange_rates] and
    [search_exchange_rates] returns normally and leaves the world as the fetch
    left it: nothing more is printed and no chart is shown. *)
Theorem reports_skip_when_fetch_is_empty self (min_value max_value : num) w w1 :
  fetch_json_from_api json_loads json_dumps self w = (Ret PNone, w1) →
  plot_exchange_rates json_loads json_dumps self w = (Ret (), w1)
  ∧ aggregate_exchange_rates json_loads json_dumps self w = (Ret (), w1)
  ∧ search_exchange_rates json_loads json_dumps self min_value max_value w
    = (Ret (), w1).
Proof.
  intros Hfetch.
  unfold plot_exchange_rates, aggregate_exchange_rates, search_exchange_rates,
    bind, lift.
  by rewrite Hfetch.
Qed.
End reports.

(** ** The average of floats *)


Lemma added_in_turn_unique (acc : float) (values : list float) (t1 t2 : float) :
  added_in_turn acc values t1 → added_in_turn acc values t2 → t1 = t2.
Proof.
  intros H1. revert t2. induction H1 as [acc|acc x rest total _ IH]; intros t2 H2.
  - by inversion H2.
  - inversion H2; subst. by apply IH.
Qed.


Lemma compensated_in_turn_unique (s c : float) (values : list float)
    (s1 c1 s2 c2 : float) :
  compensated_in_turn s c values s1 c1 →
  compensated_in_turn s c values s2 c2 →
  s1 = s2 ∧ c1 = c2.
Proof.
  intros H1. revert s2 c2.
  induction H1 as [s c|s c x rest s' c' Hcmp _ IH|s c x rest s' c' Hcmp _ IH];
    intros s2 c2 H2; inversion H2; subst; try done; try congruence;
    by apply IH.
Qed.


Lemma float_total_unique (s : summation) (values : list float) (t1 t2 : float) :
  float_total s values t1 → float_total s values t2 → t1 = t2.
Proof.
  destruct s; simpl.
  - apply added_in_turn_unique.
  - destruct values as [|x rest]; [congruence|].
    intros (s1 & c1 & H1 & ->) (s2 & c2 & H2 & ->).
    by destruct (compensated_in_turn_unique _ _ _ _ _ _ _ H1 H2) as [-> ->].
Qed.

Section float_average.
Variable json_loads : string → outcome (pyval float).
Variable json_dumps : pyval float → string.

End float_average.

(** ** The cache and the endpoint *)

Section cache.
Context {num : Type}.
Variable json_loads : string → outcome (pyval num).
Variable json_dumps : pyval num → string.

Lemma redis_py_get_keeps_world (k : string) (w w1 : world num) data :
  redis_py_get k w = (Ret data, w1) → w1 = w ∧ data = keyspace w !! k.
Proof. unfold redis_py_get. destruct (redis_up w); intros [= <- <-]; done. Qed.

(** What the [try] block does after a cache miss, up to the cache write. *)
Lemma fetch_body_miss self (w w1 : world num) data :
  redis_get (redis_client self) "exchange_rate_data" w = (Ret data, w1) →
  truthy data = false →
  fetch_body json_loads json_dumps self w =
    match endpoint w1 (api_url self) with
    | Ret r =>
        if bool_decide (400 ≤ status_code r < 600)%Z
        then (Raise RequestException, request_counted w1)
        else match response_json r with
             | Ret doc =>
                 match redis_json_set (redis_client self)
                         ["exchange_rate_data"; json_dumps doc]
                         (request_counted w1) with
                 | (Ret _, w2) => (Ret doc, w2)
                 | (Raise e, w2) => (Raise e, w2)
                 end
             | Raise e => (Raise e, request_counted w1)
             end
    | Raise e => (Raise e, request_counted w1)
    end.
Proof.
  intros Hget Hmiss. unfold fetch_body, bind. rewrite Hget, Hmiss.
  unfold requests_get, raise_for_status, lift.
  destruct (endpoint w1 (api_url self)) as [r|e]; [|done].
  destruct (bool_decide (400 ≤ status_code r < 600)%Z); [done|]. simpl.
  destruct (response_json r) as [doc|e]; [|done].
  by destruct (redis_json_set _ _ _) as [[[]|e] w2].
Qed.

(** X1: a cache hit.  A non-empty cached text that decodes is returned as
    the document, in the world the cache read left: no request is sent,
    nothing is written and nothing is printed. *)
Lemma fetch_cache_hit self (w w1 : world num) text doc :
  redis_get (redis_client self) "exchange_rate_data" w = (Ret (Some text), w1) →
  text ≠ EmptyString →
  json_loads text = Ret doc →
  fetch_json_from_api json_loads json_dumps self w = (Ret doc, w1).
Proof.
  intros Hget Htext Hdoc.
  unfold fetch_json_from_api, try_except, fetch_body, bind, lift.
  rewrite Hget. destruct text; [done|]. simpl. by rewrite Hdoc.
Qed.

(** C3, amended: after a cache miss, when the HTTP GET returns an error
    status, 400 to 599, [fetch_json_from_api] returns [None]; after the cache
    read it only counts the request and prints the error, so no cache write
    occurs, and on the Redis client of the specification the keys are as
    before the call. *)
Theorem fetch_http_error_returns_none self (w w1 : world num) data r :
  redis_get (redis_client self) "exchange_rate_data" w = (Ret data, w1) →
  truthy data = false →
  endpoint w1 (api_url self) = Ret r →
  (400 ≤ status_code r < 600)%Z →
  fetch_json_from_api json_loads json_dumps self w =
    (Ret PNone,
     console_append [ErrorFetching RequestException] (request_counted w1))
  ∧ (redis_client self = redis_py →
     keyspace (fetch_json_from_api json_loads json_dumps self w).2 = keyspace w).
Proof.
  intros Hget Hmiss Hr Hstatus.
  assert (Hrun : fetch_json_from_api json_loads json_dumps self w =
    (Ret PNone,
     console_append [ErrorFetching RequestException] (request_counted w1))).
  { unfold fetch_json_from_api, try_except.
    rewrite (fetch_body_miss self w w1 data Hget Hmiss), Hr.
    by rewrite bool_decide_eq_true_2. }
  split; [done|]. intros Hclient. rewrite Hrun. simpl.
  rewrite Hclient in Hget. by apply redis_py_get_keeps_world in Hget as [-> _].
Qed.


(** X6: on the Redis client of the specification the cache write of
    [fetch_json_from_api] passes two arguments where three are required:
    every cache miss followed by a good response ends in a [TypeError], which
    the [except] clause does not catch, after the one request and with
    nothing written or printed. *)
Lemma fetch_miss_on_redis_py_raises url (w : world num) r doc :
  redis_up w = true →
  truthy (keyspace w !! "exchange_rate_data") = false →
  endpoint w url = Ret r →
  ¬ (400 ≤ status_code r < 600)%Z →
  response_json r = Ret doc →
  fetch_json_from_api json_loads json_dumps (on_redis_py url) w
  = (Raise TypeError, request_counted w).
Proof.
  intros Hup Hmiss Hr Hstatus Hdoc.
  unfold fetch_json_from_api, try_except.
  rewrite (fetch_body_miss _ w w (keyspace w !! "exchange_rate_data")); simpl.
  - rewrite Hr, bool_decide_eq_false_2 by done. by rewrite Hdoc.
  - unfold redis_py_get. by rewrite Hup.
  - done.
Qed.
End cache.

(** ** Inserting the rates *)

Section insertion.
Context {num : Type}.
Variable json_dumps : pyval num → string.

(** On the Redis client of the specification a raising [try] block has
    changed nothing. *)
Lemma insert_body_raise_keeps_world url data (w wb : world num) e :
  insert_body json_dumps (on_redis_py url) data w = (Raise e, wb) → wb = w.
Proof.
  unfold insert_body, bind, lift.
  destruct (py_contains "conversion_rates" data) as [[]|e1]; simpl;
    try (intros [= _ <-]; done).
  destruct (py_getitem data "conversion_rates") as [v|e2]; simpl;
    try (intros [= _ <-]; done).
  destruct (redis_up w); simpl; intros [= _ <-]; done.
Qed.

(** C9, amended: for every input document, [insert_into_redis] returns
    normally and leaves the entry of the full document, "exchange_rate_data",
    as it was.  With the conversion_rates field present it stores the encoded
    mapping under "exchange_rates" and changes nothing else, or, when the
    server cannot be reached, prints the error and stores nothing.  With the
    field missing it does nothing at all: no key is modified and nothing is
    printed. *)
Theorem insert_writes_rates_only url d (w : world num) :
  let w' := (insert_into_redis json_dumps (on_redis_py url) (PDict d) w).2 in
  (insert_into_redis json_dumps (on_redis_py url) (PDict d) w).1 = Ret ()
  ∧ keyspace w' !! "exchange_rate_data" = keyspace w !! "exchange_rate_data"
  ∧ match dict_lookup "conversion_rates" d with
    | Some conversion_rates =>
        if redis_up w
        then w' = set_keyspace
                    (<["exchange_rates" := json_dumps conversion_rates]>
                       (keyspace w)) w
        else w' = console_append [ErrorInserting RedisError] w
    | None => w' = w
    end.
Proof.
  unfold insert_into_redis, try_except, insert_body, bind, lift; simpl.
  destruct (dict_lookup "conversion_rates" d) as [v|]; simpl; [|done].
  destruct (redis_up w); simpl; [|done].
  split; [done|]. split; [|done]. by rewrite lookup_insert_ne.
Qed.

(** C10: for every input value, [insert_into_redis] returns normally: an
    exception raised in its [try] block, a [TypeError] of the membership test
    on [None] included, is caught and printed; and on the Redis client of the
    specification the printed line is then the only change of the world, so no
    cache key is modified. *)
Theorem insert_never_raises self data (w : world num) :
  (∃ w', insert_into_redis json_dumps self data w = (Ret (), w'))
  ∧ (∀ e wb,
       insert_body json_dumps self data w = (Raise e, wb) →
       insert_into_redis json_dumps self data w
       = (Ret (), console_append [ErrorInserting e] wb)
       ∧ (redis_client self = redis_py →
          wb = w
          ∧ keyspace (insert_into_redis json_dumps self data w).2 = keyspace w)).
Proof.
  unfold insert_into_redis, try_except. split.
  - destruct (insert_body json_dumps self data w) as [[[]|e] wb]; eauto.
  - intros e wb Hbody. rewrite Hbody. split; [done|]. intros Hclient.
    destruct self as [url client]. simpl in Hclient. subst client.
    by rewrite (insert_body_raise_keeps_world url data w wb e Hbody).
Qed.
End insertion.

(** ** The fetch, path by path *)

Section fetch_paths.
Context {num : Type}.
Variable json_loads : string → outcome (pyval num).
Variable json_dumps : pyval num → string.

(** X2: a cached text that does not decode is not replaced by a fresh
    download: the decoding error is printed and the fetch returns [None]
    without a request to the endpoint. *)
Theorem fetch_corrupt_cache_returns_none self (w w1 : world num) text :
  redis_get (redis_client self) "exchange_rate_data" w = (Ret (Some text), w1) →
  text ≠ EmptyString →
  json_loads text = Raise JSONDecodeError →
  fetch_json_from_api json_loads json_dumps self w
  = (Ret PNone, console_append [ErrorFetching JSONDecodeError] w1).
Proof.
  intros Hget Htext Hdoc.
  unfold fetch_json_from_api, try_except, fetch_body, bind, lift.
  rewrite Hget. destruct text; [done|]. simpl. by rewrite Hdoc.
Qed.

(** X3: when the cache read itself fails with a [RedisError] the fetch
    prints the error and returns [None]; the endpoint is not tried. *)
Theorem fetch_cache_read_error_returns_none self (w w1 : world num) :
  redis_get (redis_client self) "exchange_rate_data" w = (Raise RedisError, w1) →
  fetch_json_from_api json_loads json_dumps self w
  = (Ret PNone, console_append [ErrorFetching RedisError] w1).
Proof.
  intros Hget. unfold fetch_json_from_api, try_except, fetch_body, bind.
  by rewrite Hget.
Qed.

(** X4: after a cache miss, a request that fails in transport (a
    [RequestException] of [requests.get]) gives [None]: the error is printed
    after the one request, and the cache write is not reached. *)
Theorem fetch_transport_failure_returns_none self (w w1 : world num) data :
  redis_get (redis_client self) "exchange_rate_data" w = (Ret data, w1) →
  truthy data = false →
  endpoint w1 (api_url self) = Raise RequestException →
  fetch_json_from_api json_loads json_dumps self w
  = (Ret PNone,
     console_append [ErrorFetching RequestException] (request_counted w1)).
Proof.
  intros Hget Hmiss Hr. unfold fetch_json_from_api, try_except.
  by rewrite (fetch_body_miss json_loads json_dumps self w w1 data Hget Hmiss), Hr.
Qed.

(** X5: after a cache miss, an answer whose status is no error but whose
    body does not decode gives [None]: the decoding error is printed and the
    cache write is not reached. *)
Theorem fetch_malformed_body_returns_none self (w w1 : world num) data r :
  redis_get (redis_client self) "exchange_rate_data" w = (Ret data, w1) →
  truthy data = false →
  endpoint w1 (api_url self) = Ret r →
  ¬ (400 ≤ status_code r < 600)%Z →
  response_json r = Raise JSONDecodeError →
  fetch_json_from_api json_loads json_dumps self w
  = (Ret PNone,
     console_append [ErrorFetching JSONDecodeError] (request_counted w1)).
Proof.
  intros Hget Hmiss Hr Hstatus Hjson. unfold fetch_json_from_api, try_except.
  rewrite (fetch_body_miss json_loads json_dumps self w w1 data Hget Hmiss), Hr.
  rewrite bool_decide_eq_false_2 by done. by rewrite Hjson.
Qed.

(** The whole of [fetch_json_from_api] on the Redis client of the
    specification, case by case. *)
Lemma fetch_on_redis_py url (w : world num) :
  fetch_json_from_api json_loads json_dumps (on_redis_py url) w =
    if redis_up w then
      if truthy (keyspace w !! "exchange_rate_data") then
        match json_loads (cached_text (keyspace w !! "exchange_rate_data")) with
        | Ret doc => (Ret doc, w)
        | Raise e => fetch_handled e w
        end
      else
        match endpoint w url with
        | Ret r =>
            if bool_decide (400 ≤ status_code r < 600)%Z
            then fetch_handled RequestException (request_counted w)
            else match response_json r with
                 | Ret doc => (Raise TypeError, request_counted w)
                 | Raise e => fetch_handled e (request_counted w)
                 end
        | Raise e => fetch_handled e (request_counted w)
        end
    else fetch_handled RedisError w.
Proof.
  unfold fetch_json_from_api, try_except, fetch_body, bind, lift, fetch_handled.
  simpl. unfold redis_py_get, requests_get, raise_for_status.
  destruct (redis_up w); [|done].
  destruct (truthy (keyspace w !! "exchange_rate_data")).
  { destruct (json_loads _) as [doc|e]; [done|]. simpl.
    by destruct (fetch_catches e). }
  destruct (endpoint w url) as [r|e]; simpl.
  - destruct (bool_decide (400 ≤ status_code r < 600)%Z); simpl; [done|].
    destruct (response_json r) as [doc|e]; simpl; [done|].
    by destruct (fetch_catches e).
  - by destruct (fetch_catches e).
Qed.

Lemma keyspace_fetch_handled (e : exn) (w : world num) :
  keyspace (fetch_handled e w).2 = keyspace w.
Proof. unfold fetch_handled. by destruct (fetch_catches e). Qed.

Lemma requests_sent_fetch_handled (e : exn) (w : world num) :
  requests_sent (fetch_handled e w).2 = requests_sent w.
Proof. unfold fetch_handled. by destruct (fetch_catches e). Qed.

(** X7: on the Redis client of the specification a call of the fetch sends
    exactly one HTTP request when the server is reachable and holds no
    non-empty value under the key (an empty value counts as a miss), and no
    request otherwise. *)
Theorem fetch_request_count url (w : world num) :
  requests_sent (fetch_json_from_api json_loads json_dumps (on_redis_py url) w).2
  = if redis_up w && negb (truthy (keyspace w !! "exchange_rate_data"))
    then S (requests_sent w) else requests_sent w.
Proof.
  rewrite fetch_on_redis_py.
  destruct (redis_up w); cbn [andb negb];
    [|by rewrite requests_sent_fetch_handled].
  destruct (truthy (keyspace w !! "exchange_rate_data")); cbn [andb negb].
  { destruct (json_loads _); by rewrite ?requests_sent_fetch_handled. }
  destruct (endpoint w url) as [r|e];
    [|by rewrite requests_sent_fetch_handled].
  destruct (bool_decide _); [by rewrite requests_sent_fetch_handled|].
  destruct (response_json r); by rewrite ?requests_sent_fetch_handled.
Qed.

(** X8: on the Redis client of the specification the fetch never changes
    a cache key, whatever the cache and the endpoint hold: its only write is
    the call that raises before anything is sent. *)
Theorem fetch_never_writes url (w : world num) :
  keyspace (fetch_json_from_api json_loads json_dumps (on_redis_py url) w).2
  = keyspace w.
Proof.
  rewrite fetch_on_redis_py.
  destruct (redis_up w); [|by rewrite keyspace_fetch_handled].
  destruct (truthy (keyspace w !! "exchange_rate_data")).
  { destruct (json_loads _); by rewrite ?keyspace_fetch_handled. }
  destruct (endpoint w url) as [r|e]; [|by rewrite keyspace_fetch_handled].
  destruct (bool_decide _); [by rewrite keyspace_fetch_handled|].
  destruct (response_json r); by rewrite ?keyspace_fetch_handled.
Qed.

(** The result of the fetch depends on the world only through the
    reachability of the server, the value under the key and the endpoint. *)
Lemma fetch_result_frame url (w w' : world num) :
  redis_up w' = redis_up w →
  keyspace w' !! "exchange_rate_data" = keyspace w !! "exchange_rate_data" →
  endpoint w' = endpoint w →
  (fetch_json_from_api json_loads json_dumps (on_redis_py url) w').1
  = (fetch_json_from_api json_loads json_dumps (on_redis_py url) w).1.
Proof.
  intros Hup Hkey Hend. rewrite !fetch_on_redis_py, Hup, Hkey, Hend.
  unfold fetch_handled.
  destruct (redis_up w); [|done].
  destruct (truthy _).
  { destruct (json_loads _) as [|e]; [done|]. by destruct (fetch_catches e). }
  destruct (endpoint w url) as [r|e]; [|by destruct (fetch_catches e)].
  destruct (bool_decide _); [done|].
  destruct (response_json r) as [|e]; [done|]. by destruct (fetch_catches e).
Qed.
End fetch_paths.

(** ** The insert and the other keys *)

Section insert_frame.
Context {num : Type}.
Variable json_loads : string → outcome (pyval num).
Variable json_dumps : pyval num → string.

(** The three worlds an insert on the Redis client of the specification can
    end in: nothing done, an error printed, the rates stored. *)
Lemma insert_on_redis_py_cases url data (w : world num) :
  let w' := (insert_into_redis json_dumps (on_redis_py url) data w).2 in
  w' = w
  ∨ (∃ e, w' = console_append [ErrorInserting e] w)
  ∨ (∃ v, redis_up w = true
          ∧ w' = set_keyspace (<["exchange_rates" := v]> (keyspace w)) w).
Proof.
  unfold insert_into_redis, try_except, insert_body, bind, lift; simpl.
  destruct (py_contains "conversion_rates" data) as [[]|e]; simpl;
    [|by left|right; left; by eexists].
  destruct (py_getitem data "conversion_rates") as [v|e]; simpl;
    [|right; left; by eexists].
  destruct (redis_up w) eqn:Hup; simpl.
  - right; right. by eexists.
  - right; left. by eexists.
Qed.

(** X9: for every input value, the insert changes no cache key other than
    "exchange_rates". *)
Theorem insert_keeps_other_keys url data (w : world num) (k : string) :
  k ≠ "exchange_rates" →
  keyspace (insert_into_redis json_dumps (on_redis_py url) data w).2 !! k
  = keyspace w !! k.
Proof.
  intros Hk.
  destruct (insert_on_redis_py_cases url data w)
    as [->|[[e ->]|(v & _ & ->)]]; simpl; [done..|].
  by rewrite lookup_insert_ne.
Qed.

(** X10: a second insert overwrites the first: with the server reachable,
    after the insert of two documents that have the field the world is the
    one that the insert of the second alone gives, and "exchange_rates" holds
    the encoded rates of the second. *)
Theorem insert_last_wins url d1 d2 rates1 rates2 (w : world num) :
  redis_up w = true →
  dict_lookup "conversion_rates" d1 = Some rates1 →
  dict_lookup "conversion_rates" d2 = Some rates2 →
  let once := (insert_into_redis json_dumps (on_redis_py url) (PDict d2) w).2 in
  let twice :=
    (insert_into_redis json_dumps (on_redis_py url) (PDict d2)
       (insert_into_redis json_dumps (on_redis_py url) (PDict d1) w).2).2 in
  twice = once
  ∧ keyspace twice !! "exchange_rates" = Some (json_dumps rates2).
Proof.
  intros Hup H1 H2.
  unfold insert_into_redis, try_except, insert_body, bind, lift; simpl.
  rewrite H1; simpl. rewrite Hup; simpl. rewrite H2; simpl. rewrite Hup; simpl.
  unfold set_keyspace; simpl. rewrite insert_insert_eq.
  split; [done|]. by rewrite lookup_insert_eq.
Qed.

(** X11: an insert does not change what the next fetch returns: the two
    methods use different keys. *)
Theorem insert_keeps_fetch_result url data (w : world num) :
  (fetch_json_from_api json_loads json_dumps (on_redis_py url)
     (insert_into_redis json_dumps (on_redis_py url) data w).2).1
  = (fetch_json_from_api json_loads json_dumps (on_redis_py url) w).1.
Proof.
  apply fetch_result_frame;
    destruct (insert_on_redis_py_cases url data w)
      as [->|[[e ->]|(v & _ & ->)]]; simpl; try done.
  by rewrite lookup_insert_ne.
Qed.
End insert_frame.

(** ** The reports on documents of other shapes *)

Section report_shapes.
Context {num : Type} `{Number num}.
Variable json_loads : string → outcome (pyval num).
Variable json_dumps : pyval num → string.

(** X12: on a document that is a dict without the conversion_rates field
    each of the three reports returns normally and does nothing. *)
Theorem reports_skip_without_field self (min_value max_value : num) w w1 d :
  fetch_json_from_api json_loads json_dumps self w = (Ret (PDict d), w1) →
  dict_lookup "conversion_rates" d = None →
  plot_exchange_rates json_loads json_dumps self w = (Ret (), w1)
  ∧ aggregate_exchange_rates json_loads json_dumps self w = (Ret (), w1)
  ∧ search_exchange_rates json_loads json_dumps self min_value max_value w
    = (Ret (), w1).
Proof.
  intros Hfetch Hd.
  unfold plot_exchange_rates, aggregate_exchange_rates, search_exchange_rates,
    bind, lift.
  rewrite Hfetch; simpl. by rewrite Hd.
Qed.

(** A document that is no dict: the membership test is [False] or raises,
    and when it is [True] (a list that holds the string, a string that
    contains it) the subscript raises. *)
Lemma non_dict_has_no_rates (data : pyval num) :
  (∀ d, data ≠ PDict d) →
  has_conversion_rates data = Ret false
  ∨ has_conversion_rates data = Raise TypeError
  ∨ (has_conversion_rates data = Ret true
     ∧ py_getitem data "conversion_rates" = Raise TypeError).
Proof.
  intros Hdata. destruct data as [| | |s|l|d]; simpl; auto.
  - destruct (str_contains "conversion_rates" s); auto.
  - destruct (existsb (is_str "conversion_rates") l); auto.
  - by destruct (Hdata d).
Qed.

(** X13: only a dict gives a report.  On a document of any other type each
    of the three reports prints nothing and shows nothing: it returns
    normally or raises [TypeError], in the world the fetch left. *)
Theorem reports_on_non_dict self (min_value max_value : num) w w1 data :
  fetch_json_from_api json_loads json_dumps self w = (Ret data, w1) →
  (∀ d, data ≠ PDict d) →
  ∃ result,
    (result = Ret () ∨ result = Raise TypeError)
    ∧ plot_exchange_rates json_loads json_dumps self w = (result, w1)
    ∧ aggregate_exchange_rates json_loads json_dumps self w = (result, w1)
    ∧ search_exchange_rates json_loads json_dumps self min_value max_value w
      = (result, w1).
Proof.
  intros Hfetch Hdata.
  unfold plot_exchange_rates, aggregate_exchange_rates, search_exchange_rates,
    bind, lift.
  rewrite Hfetch.
  destruct (non_dict_has_no_rates data Hdata) as [->|[->|[-> ->]]].
  - exists (Ret ()). auto.
  - exists (Raise TypeError). auto.
  - exists (Raise TypeError). auto.
Qed.

(** X20: a conversion_rates field that is no dict ([null], a list, a
    number) has no [items] and no [values]: each of the three reports raises
    [AttributeError], which nothing catches, and prints and shows nothing. *)
Theorem reports_raise_on_non_mapping_rates self (min_value max_value : num)
    w w1 d v :
  fetch_json_from_api json_loads json_dumps self w = (Ret (PDict d), w1) →
  dict_lookup "conversion_rates" d = Some v →
  (∀ rates, v ≠ PDict rates) →
  plot_exchange_rates json_loads json_dumps self w = (Raise AttributeError, w1)
  ∧ aggregate_exchange_rates json_loads json_dumps self w
    = (Raise AttributeError, w1)
  ∧ search_exchange_rates json_loads json_dumps self min_value max_value w
    = (Raise AttributeError, w1).
Proof.
  intros Hfetch Hd Hv.
  destruct (has_conversion_rates_dict d v Hd) as [Hhas Hget].
  assert (Hitems : py_items v = Raise AttributeError).
  { destruct v; try done. by destruct (Hv d0). }
  unfold plot_exchange_rates, aggregate_exchange_rates, search_exchange_rates,
    bind, lift.
  by rewrite Hfetch, Hhas, Hget, Hitems.
Qed.

(** X15: the empty mapping.  [plot_exchange_rates] shows a chart without
    bars and [search_exchange_rates] prints the empty list, but
    [aggregate_exchange_rates] divides by the length [0]: it raises
    [ZeroDivisionError], which nothing catches, and prints nothing. *)
Theorem reports_on_empty_mapping self (min_value max_value : num) w w1 d :
  fetch_json_from_api json_loads json_dumps self w = (Ret (PDict d), w1) →
  dict_lookup "conversion_rates" d = Some (PDict []) →
  plot_exchange_rates json_loads json_dumps self w
  = (Ret (), figure_shown
               {| bar_x := []; bar_height := [];
                  xlabel := "Currency"; ylabel := "Exchange Rate";
                  title := "Exchange Rates" |} w1)
  ∧ aggregate_exchange_rates json_loads json_dumps self w
    = (Raise ZeroDivisionError, w1)
  ∧ search_exchange_rates json_loads json_dumps self min_value max_value w
    = (Ret (), console_append [CurrenciesInRange []] w1).
Proof.
  intros Hfetch Hd.
  destruct (has_conversion_rates_dict d _ Hd) as [Hhas Hget].
  unfold plot_exchange_rates, aggregate_exchange_rates, search_exchange_rates,
    bind, lift.
  by rewrite Hfetch, Hhas, Hget.
Qed.

(** A report after a fetch that raised: the exception passes through. *)
Lemma reports_after_raise self (min_value max_value : num) w w1 e :
  fetch_json_from_api json_loads json_dumps self w = (Raise e, w1) →
  plot_exchange_rates json_loads json_dumps self w = (Raise e, w1)
  ∧ aggregate_exchange_rates json_loads json_dumps self w = (Raise e, w1)
  ∧ search_exchange_rates json_loads json_dumps self min_value max_value w
    = (Raise e, w1).
Proof.
  intros Hfetch.
  unfold plot_exchange_rates, aggregate_exchange_rates, search_exchange_rates,
    bind.
  by rewrite Hfetch.
Qed.

(** X14: the first download.  On the Redis client of the specification,
    with nothing cached and an endpoint that answers well, each of the three
    reports raises the [TypeError] of the cache write: one request is sent and
    nothing is printed, shown or stored. *)
Theorem reports_raise_on_first_download url (min_value max_value : num)
    (w : world num) r doc :
  redis_up w = true →
  truthy (keyspace w !! "exchange_rate_data") = false →
  endpoint w url = Ret r →
  ¬ (400 ≤ status_code r < 600)%Z →
  response_json r = Ret doc →
  plot_exchange_rates json_loads json_dumps (on_redis_py url) w
  = (Raise TypeError, request_counted w)
  ∧ aggregate_exchange_rates json_loads json_dumps (on_redis_py url) w
    = (Raise TypeError, request_counted w)
  ∧ search_exchange_rates json_loads json_dumps (on_redis_py url)
      min_value max_value w
    = (Raise TypeError, request_counted w).
Proof.
  intros Hup Hmiss Hr Hstatus Hdoc. apply reports_after_raise.
  rewrite fetch_on_redis_py, Hup, Hmiss, Hr.
  rewrite bool_decide_eq_false_2 by done. by rewrite Hdoc.
Qed.
End report_shapes.

(** ** Order in the figures of the reports *)

Section report_order.
Context {num : Type} {ordered : num → bool} `{NumberOrder num ordered}.
Variable json_loads : string → outcome (pyval num).
Variable json_dumps : pyval num → string.

(** X16: on a non-empty mapping without NaN the median printed lies
    between the minimum and the maximum printed. *)
Theorem aggregate_median_between_extrema self w w1 d (cr : list (string * num)) :
  fetch_json_from_api json_loads json_dumps self w = (Ret (PDict d), w1) →
  dict_lookup "conversion_rates" d = Some (rates_dict cr) →
  cr ≠ [] →
  forallb ordered (map snd cr) = true →
  ∃ average minimum maximum median,
    aggregate_exchange_rates json_loads json_dumps self w =
      (Ret (), console_append
                 [AverageRate average; MinimumRate minimum;
                  MaximumRate maximum; MedianRate median] w1)
    ∧ num_le minimum median = true
    ∧ num_le median maximum = true.
Proof.
  intros Hfetch Hd Hne Hord%forallb_ordered.
  destruct (aggregate_report json_loads json_dumps self w w1 d cr Hfetch Hd Hne)
    as (minimum & maximum & median & Hmin & Hmax & Hmedian & Hrun).
  assert (Hvalues : map snd cr ≠ []) by by destruct cr.
  destruct (py_min_least _ Hvalues Hord) as (m1 & Hm1 & _ & Hmin_le).
  destruct (py_max_greatest _ Hvalues Hord) as (m2 & Hm2 & _ & Hmax_le).
  rewrite Hmin in Hm1. rewrite Hmax in Hm2.
  injection Hm1 as <-. injection Hm2 as <-.
  assert (Hin : median ∈ map snd cr).
  { rewrite <- (py_sorted_Permutation id). by eapply list_elem_of_lookup_2. }
  eexists _, minimum, maximum, median. split; [exact Hrun|]. auto.
Qed.

(** A wider predicate keeps what the narrower one keeps. *)
Lemma filter_sublist_impl {A : Type} (P Q : A → Prop)
    `{∀ x, Decision (P x)} `{∀ x, Decision (Q x)} (l : list A) :
  (∀ x, x ∈ l → P x → Q x) → filter P l `sublist_of` filter Q l.
Proof.
  induction l as [|x l IH]; intros Himpl; [done|].
  rewrite !filter_cons.
  assert (Hl : filter P l `sublist_of` filter Q l).
  { apply IH. intros y Hy. apply Himpl. by right. }
  destruct (decide (P x)) as [HP|HP].
  - rewrite decide_True by (apply Himpl; [left|done]). by constructor.
  - destruct (decide (Q x)); [by constructor|done].
Qed.

(** X17: a wider range reports more.  With bounds and rates that are not
    NaN, the codes printed for [min_value, max_value] are, in the same order,
    among the codes printed for a range [lower, upper] that contains it. *)
Theorem search_wider_range_reports_more self
    (min_value max_value lower upper : num) w w1 d (cr : list (string * num)) :
  fetch_json_from_api json_loads json_dumps self w = (Ret (PDict d), w1) →
  dict_lookup "conversion_rates" d = Some (rates_dict cr) →
  forallb ordered (min_value :: max_value :: lower :: upper :: map snd cr) = true →
  num_le lower min_value = true →
  num_le max_value upper = true →
  ∃ codes wider_codes,
    search_exchange_rates json_loads json_dumps self min_value max_value w
    = (Ret (), console_append [CurrenciesInRange codes] w1)
    ∧ search_exchange_rates json_loads json_dumps self lower upper w
      = (Ret (), console_append [CurrenciesInRange wider_codes] w1)
    ∧ codes `sublist_of` wider_codes.
Proof.
  intros Hfetch Hd Hord%forallb_ordered Hlower Hupper.
  apply Forall_cons in Hord as [Hmin Hord]. apply Forall_cons in Hord as [Hmax Hord].
  apply Forall_cons in Hord as [Hlo Hord]. apply Forall_cons in Hord as [Hup Hord].
  destruct (has_conversion_rates_dict d _ Hd) as [Hhas Hget].
  eexists _, _. split; [|split].
  - unfold search_exchange_rates, bind, lift. rewrite Hfetch, Hhas, Hget.
    by rewrite py_items_rates_dict.
  - unfold search_exchange_rates, bind, lift. rewrite Hfetch, Hhas, Hget.
    by rewrite py_items_rates_dict.
  - apply (fmap_sublist fst), filter_sublist_impl.
    intros [c r] Hin. simpl. rewrite !andb_true_iff. intros [H1 H2].
    assert (Hr : ordered r = true).
    { rewrite Forall_forall in Hord. apply Hord.
      apply list_elem_of_fmap. by exists (c, r). }
    split.
    + by apply (num_le_trans _ min_value).
    + by apply (num_le_trans _ max_value).
Qed.

Lemma filter_none {A : Type} (P : A → Prop) `{∀ x, Decision (P x)} (l : list A) :
  (∀ x, x ∈ l → ¬ P x) → filter P l = [].
Proof.
  induction l as [|x l IH]; intros Hnone; [done|].
  rewrite filter_cons, decide_False by (apply Hnone; left).
  apply IH. intros y Hy. apply Hnone. by right.
Qed.

(** X18: bounds the wrong way round.  With bounds and rates that are not
    NaN and [max_value < min_value] the search prints the empty list. *)
Theorem search_inverted_bounds_reports_nothing self (min_value max_value : num)
    w w1 d (cr : list (string * num)) :
  fetch_json_from_api json_loads json_dumps self w = (Ret (PDict d), w1) →
  dict_lookup "conversion_rates" d = Some (rates_dict cr) →
  forallb ordered (min_value :: max_value :: map snd cr) = true →
  num_lt max_value min_value = true →
  search_exchange_rates json_loads json_dumps self min_value max_value w
  = (Ret (), console_append [CurrenciesInRange []] w1).
Proof.
  intros Hfetch Hd Hord%forallb_ordered Hlt.
  apply Forall_cons in Hord as [Hmin Hord]. apply Forall_cons in Hord as [Hmax Hord].
  destruct (has_conversion_rates_dict d _ Hd) as [Hhas Hget].
  unfold search_exchange_rates, bind, lift. rewrite Hfetch, Hhas, Hget.
  rewrite py_items_rates_dict. unfold print.
  rewrite filter_none; [done|]. intros [c r] Hin. simpl.
  rewrite andb_true_iff. intros [H1 H2].
  assert (Hr : ordered r = true).
  { rewrite Forall_forall in Hord. apply Hord.
    apply list_elem_of_fmap. by exists (c, r). }
  pose proof (num_le_trans _ _ _ Hmin Hr Hmax H1 H2) as Hle.
  rewrite num_le_lt, Hlt in Hle by done. done.
Qed.
End report_order.

(** ** NaN and the range search *)

Lemma SFleb_not_nan (x y : spec_float) :
  SFleb x y = true → x ≠ S754_nan ∧ y ≠ S754_nan.
Proof.
  unfold SFleb, SFcompare.
  destruct x as [[]|[]| |[] mx ex], y as [[]|[]| |[] my ey]; simpl; done.
Qed.

Lemma SFeqb_refl (x : spec_float) : x ≠ S754_nan → SFeqb x x = true.
Proof.
  unfold SFeqb, SFcompare. destruct x as [[]|[]| |[] m e]; try done;
    intros _; rewrite Z.compare_refl;
    change (Pos.compare_cont Eq m m) with (Pos.compare m m);
    by rewrite Pos.compare_refl.
Qed.

Lemma float_leb_ordered (x y : float) :
  PrimFloat.leb x y = true → float_ordered x = true ∧ float_ordered y = true.
Proof.
  rewrite FloatAxioms.leb_spec. intros [Hx Hy]%SFleb_not_nan.
  unfold float_ordered, PrimFloat.is_nan.
  rewrite !negb_involutive, !FloatAxioms.eqb_spec. split; by apply SFeqb_refl.
Qed.

Section search_nan.
Variable json_loads : string → outcome (pyval float).
Variable json_dumps : pyval float → string.

(** X19: NaN is outside every range.  On floats the search prints the
    empty list when one of its bounds is NaN, and it never prints the code of
    a rate that is NaN. *)
Theorem search_leaves_nan_out self (min_value max_value : float) w w1 d
    (cr : list (string * float)) :
  fetch_json_from_api json_loads json_dumps self w = (Ret (PDict d), w1) →
  dict_lookup "conversion_rates" d = Some (rates_dict cr) →
  ∃ codes,
    search_exchange_rates json_loads json_dumps self min_value max_value w
    = (Ret (), console_append [CurrenciesInRange codes] w1)
    ∧ (float_ordered min_value = false ∨ float_ordered max_value = false →
       codes = [])
    ∧ (∀ c, c ∈ codes → ∃ r, (c, r) ∈ cr ∧ float_ordered r = true).
Proof.
  intros Hfetch Hd.
  destruct (has_conversion_rates_dict d _ Hd) as [Hhas Hget].
  eexists. split; [|split].
  - unfold search_exchange_rates, bind, lift. rewrite Hfetch, Hhas, Hget.
    by rewrite py_items_rates_dict.
  - intros Hnan. rewrite filter_none; [done|]. intros [c r] _. simpl.
    rewrite andb_true_iff.
    intros [[Hmin _]%float_leb_ordered [_ Hmax]%float_leb_ordered].
    destruct Hnan; congruence.
  - intros c ([c' r] & -> & Hin)%list_elem_of_fmap.
    apply list_elem_of_filter in Hin as [Hr Hin]. simpl in Hr.
    apply andb_true_iff in Hr as [[_ Hr]%float_leb_ordered _].
    by exists r.
Qed.
End search_nan.

(** ** The script *)

Section script_on_cache.
Variable json_loads : string → outcome (pyval float).
Variable json_dumps : pyval float → string.


End script_on_cache.

(** ** The script when the fetch fails *)

Section script_runs.
Context {arithmetic : Number float}.
Variable json_loads : string → outcome (pyval float).
Variable json_dumps : pyval float → string.

(** X22: the first run of the script.  With nothing cached and an endpoint
    that answers well, the script stops in its first report with the
    [TypeError] of the cache write: after one request, with nothing printed,
    shown or stored, and the statistics and the search never run. *)
Theorem main_raises_on_first_download url (w : world float) r doc :
  redis_up w = true →
  truthy (keyspace w !! "exchange_rate_data") = false →
  endpoint w url = Ret r →
  ¬ (400 ≤ status_code r < 600)%Z →
  response_json r = Ret doc →
  main json_loads json_dumps url redis_py w = (Raise TypeError, request_counted w).
Proof.
  intros Hup Hmiss Hr Hstatus Hdoc. unfold main. cbv zeta.
  change {| api_url := url; redis_client := redis_py |} with (@on_redis_py float url).
  unfold bind at 1.
  assert (Hfetch :
    fetch_json_from_api json_loads json_dumps (on_redis_py url) w
    = (Raise TypeError, request_counted w)).
  { rewrite fetch_on_redis_py, Hup, Hmiss, Hr.
    rewrite bool_decide_eq_false_2 by done. by rewrite Hdoc. }
  by destruct (reports_after_raise json_loads json_dumps (on_redis_py url)
                 0.5%float 2%float w _ _ Hfetch) as (-> & _).
Qed.

(** X23: the script without Redis.  Each report makes its own fetch: with
    the server out of reach the script prints the fetch error three times and
    ends normally, with no request sent and no chart shown. *)
Theorem main_without_redis url (w : world float) :
  redis_up w = false →
  main json_loads json_dumps url redis_py w =
    (Ret (),
     console_append
       [ErrorFetching RedisError; ErrorFetching RedisError;
        ErrorFetching RedisError] w).
Proof.
  intros Hup.
  assert (Hfetch : ∀ w' : world float,
            redis_up w' = false →
            fetch_json_from_api json_loads json_dumps (on_redis_py url) w'
            = (Ret PNone, console_append [ErrorFetching RedisError] w')).
  { intros w' Hup'. by rewrite fetch_on_redis_py, Hup'. }
  unfold main. cbv zeta.
  change {| api_url := url; redis_client := redis_py |} with (@on_redis_py float url).
  unfold plot_exchange_rates, aggregate_exchange_rates, search_exchange_rates,
    bind, lift, ret.
  rewrite (Hfetch w Hup); cbn [has_conversion_rates].
  rewrite (Hfetch (console_append _ w) Hup); cbn [has_conversion_rates].
  rewrite (Hfetch (console_append _ (console_append _ w)) Hup);
    cbn [has_conversion_rates].
  by rewrite !console_append_app.
Qed.
End script_runs.

(** * Concrete runs *)

(** ** The reports on concrete mappings of floats *)

Abbreviation four_loads := (loads_of (snapshot four_rates)).
Abbreviation five_loads := (loads_of (snapshot five_rates)).
Abbreviation tied_loads := (loads_of (snapshot tied_rates)).

(** The median of the four rates 1, 2, 3, 4 is taken at index 2. *)
Lemma median_of_four_rates :
  ∃ average minimum maximum median sorted_values,
    aggregate_exchange_rates four_loads dumps_of processor cached_world =
      (Ret (), console_append
                 [AverageRate average; MinimumRate minimum;
                  MaximumRate maximum; MedianRate median] cached_world)
    ∧ sorted_values ≡ₚ map snd four_rates
    ∧ StronglySorted (ascending id) sorted_values
    ∧ sorted_values !! (length four_rates / 2) = Some median.
Proof.
  apply (aggregate_median_upper_middle four_loads dumps_of processor
           cached_world cached_world (snapshot_fields four_rates) four_rates);
    [reflexivity | reflexivity | discriminate | reflexivity].
Defined.

(** The report on 1, 2, 3, 4: the median printed is 3, the upper of the two
    middle values, and not 2.5 (which is the average here). *)
Example aggregate_four_rates :
  stdout (aggregate_exchange_rates four_loads dumps_of processor cached_world).2
  = [AverageRate 2.5%float; MinimumRate 1%float; MaximumRate 4%float;
     MedianRate 3%float].
Proof. reflexivity. Qed.

(** An odd size: the median of 0.4, 0.5, 1, 2, 2.1 is the middle value. *)
Example aggregate_five_rates :
  stdout (aggregate_exchange_rates five_loads dumps_of processor cached_world).2
  = [AverageRate 1.2%float; MinimumRate 0.4%float; MaximumRate 2.1%float;
     MedianRate 1%float].
Proof. reflexivity. Qed.



(** Rounding alone moves the average off the mean, and differently under
    the two summations: for 0.1, 0.2, 0.3 the one prints
    0.20000000000000004 and the other 0.19999999999999998. *)
Example average_of_tenths_depends_on_summation :
  let loads := loads_of (snapshot tenth_rates) in
  stdout (@aggregate_exchange_rates float (float_number_of LeftToRight) loads
            dumps_of processor cached_world).2
  = [AverageRate 0.20000000000000004%float; MinimumRate 0.1%float;
     MaximumRate 0.3%float; MedianRate 0.2%float]
  ∧ stdout (@aggregate_exchange_rates float (float_number_of Compensated) loads
              dumps_of processor cached_world).2
    = [AverageRate 0.19999999999999998%float; MinimumRate 0.1%float;
       MaximumRate 0.3%float; MedianRate 0.2%float].
Proof. split; reflexivity. Qed.

Lemma search_five_rates :
  ∃ codes,
    search_exchange_rates five_loads dumps_of processor 0.5%float 2%float
      cached_world =
      (Ret (), console_append [CurrenciesInRange codes] cached_world)
    ∧ codes = map fst (filter (λ kv, in_range 0.5%float 2%float kv.2) five_rates)
    ∧ (∀ c, c ∈ codes
            ↔ ∃ r, (c, r) ∈ five_rates ∧ in_range 0.5%float 2%float r)
    ∧ codes `sublist_of` map fst five_rates.
Proof.
  apply (search_reports_codes_in_range five_loads dumps_of processor
           0.5%float 2%float cached_world cached_world
           (snapshot_fields five_rates) five_rates);
    reflexivity.
Defined.

(** The example of the specification: the search from 0.5 to 2.0 over
    A:0.4, B:0.5, C:1.0, D:2.0, E:2.1 prints B, C, D. *)
Example search_from_half_to_two :
  stdout (search_exchange_rates five_loads dumps_of processor 0.5%float 2%float
            cached_world).2
  = [CurrenciesInRange ["B"; "C"; "D"]].
Proof. reflexivity. Qed.

Lemma plot_tied_rates :
  ∃ entries,
    plot_exchange_rates tied_loads dumps_of processor cached_world =
      (Ret (), figure_shown
                 {| bar_x := map fst entries; bar_height := map snd entries;
                    xlabel := "Currency"; ylabel := "Exchange Rate";
                    title := "Exchange Rates" |} cached_world)
    ∧ entries ≡ₚ tied_rates
    ∧ StronglySorted (ascending snd) entries
    ∧ ∀ r, float_ordered r = true →
           with_rate snd r entries = with_rate snd r tied_rates.
Proof.
  apply (plot_sorts_by_rate_stably tied_loads dumps_of processor
           cached_world cached_world (snapshot_fields tied_rates) tied_rates);
    reflexivity.
Defined.

(** USD and PAB are both at 1: USD, first in the mapping, is drawn first. *)
Example plot_keeps_order_of_ties :
  bar_x <$> figures (plot_exchange_rates tied_loads dumps_of processor
                       cached_world).2
  = [["AED"; "USD"; "PAB"]].
Proof. reflexivity. Qed.

(** With the Redis server down the fetch returns [None] and the three
    reports add nothing to what the fetch printed. *)
Lemma reports_skip_when_redis_is_down :
  let w1 := console_append [ErrorFetching RedisError] redis_down_world in
  plot_exchange_rates four_loads dumps_of processor redis_down_world = (Ret (), w1)
  ∧ aggregate_exchange_rates four_loads dumps_of processor redis_down_world
    = (Ret (), w1)
  ∧ search_exchange_rates four_loads dumps_of processor 0.5%float 2%float
      redis_down_world = (Ret (), w1).
Proof.
  apply (reports_skip_when_fetch_is_empty four_loads dumps_of processor
           0.5%float 2%float redis_down_world).
  reflexivity.
Defined.

(** ** The fetch on concrete worlds *)

(** A 404 answer after a cache miss: [None], and the cache stays empty. *)
Lemma fetch_not_found_returns_none :
  let w := empty_cache_world (Ret not_found_response) in
  fetch_json_from_api four_loads dumps_of processor w =
    (Ret PNone,
     console_append [ErrorFetching RequestException] (request_counted w))
  ∧ (redis_client processor = redis_py →
     keyspace (fetch_json_from_api four_loads dumps_of processor w).2
     = keyspace w).
Proof.
  apply (fetch_http_error_returns_none four_loads dumps_of processor
           (empty_cache_world (Ret not_found_response))
           (empty_cache_world (Ret not_found_response)) None
           not_found_response);
    [reflexivity | reflexivity | reflexivity | simpl; lia].
Defined.

(** C3 as stated fails on a status that is neither 2xx nor an error: on a
    300 answer with a JSON body [raise_for_status] raises nothing, the fetch
    goes on to the cache write and does not return [None]. *)
Lemma fetch_multiple_choices_does_not_return_none :
  let doc := snapshot four_rates in
  let w := empty_cache_world (Ret (multiple_choices_response doc)) in
  keyspace w !! "exchange_rate_data" = None
  ∧ ¬ (200 ≤ status_code (multiple_choices_response doc) < 300)%Z
  ∧ (fetch_json_from_api four_loads dumps_of processor w).1 = Raise TypeError
  ∧ (fetch_json_from_api four_loads dumps_of processor w).1 ≠ Ret PNone.
Proof.
  simpl. split; [done|]. split; [lia|]. split; [reflexivity|discriminate].
Qed.



(** C6: the code at an empty cache and a good answer.  The first call
    raises [TypeError] at the cache write and stores nothing; the call right
    after it misses the cache again, sends a second request and raises again. *)
Theorem cache_miss_never_fills_cache :
  let w := empty_cache_world (Ret (ok_response (snapshot four_rates))) in
  let first := fetch_json_from_api four_loads dumps_of processor w in
  let second := fetch_json_from_api four_loads dumps_of processor first.2 in
  first.1 = Raise TypeError
  ∧ keyspace first.2 = ∅
  ∧ requests_sent first.2 = 1
  ∧ second.1 = Raise TypeError
  ∧ requests_sent second.2 = 2.
Proof. simpl. repeat split; reflexivity. Qed.

(** ** The insert on concrete worlds *)

(** C9 as stated fails on a document without the field: the insert prints
    nothing, the console after it is the console before it. *)
Lemma insert_without_field_prints_nothing :
  let fields : list (string * pyval float) := [("result", PStr "error")] in
  let after := (insert_into_redis dumps_of processor (PDict fields)
                  cached_world).2 in
  dict_lookup "conversion_rates" fields = None
  ∧ stdout after = stdout cached_world
  ∧ after = cached_world.
Proof. simpl. repeat split; reflexivity. Qed.

(** [None] as input: the membership test raises [TypeError], which is
    caught and printed, and the keys are untouched. *)
Lemma insert_none_is_caught :
  (∃ w', insert_into_redis dumps_of processor PNone cached_world = (Ret (), w'))
  ∧ (∀ e wb,
       insert_body dumps_of processor PNone cached_world = (Raise e, wb) →
       insert_into_redis dumps_of processor PNone cached_world
       = (Ret (), console_append [ErrorInserting e] wb)
       ∧ (redis_client processor = redis_py →
          wb = cached_world
          ∧ keyspace (insert_into_redis dumps_of processor PNone
                        cached_world).2
            = keyspace cached_world)).
Proof. exact (insert_never_raises dumps_of processor PNone cached_world). Defined.

Example insert_none_prints_type_error :
  insert_into_redis dumps_of processor PNone cached_world
  = (Ret (), console_append [ErrorInserting TypeError] cached_world).
Proof. reflexivity. Qed.

(** The insert of a snapshot stores the encoded rates under the second key
    and keeps the entry of the full document. *)
Example insert_snapshot_stores_rates :
  keyspace (insert_into_redis dumps_of processor (snapshot four_rates)
              cached_world).2
  = <["exchange_rates" := dumps_of (rates_dict four_rates)]>
      (keyspace cached_world).
Proof. reflexivity. Qed.

(** ** The paths of the fetch on concrete worlds *)

Lemma fetch_hit_on_cached_world :
  fetch_json_from_api four_loads dumps_of processor cached_world
  = (Ret (snapshot four_rates), cached_world).
Proof.
  apply (fetch_cache_hit four_loads dumps_of processor cached_world
           cached_world snapshot_text (snapshot four_rates));
    [reflexivity | discriminate | reflexivity].
Defined.

Lemma fetch_on_corrupt_cache :
  fetch_json_from_api four_loads dumps_of processor corrupt_cache_world
  = (Ret PNone,
     console_append [ErrorFetching JSONDecodeError] corrupt_cache_world).
Proof.
  apply (fetch_corrupt_cache_returns_none four_loads dumps_of processor
           corrupt_cache_world corrupt_cache_world "<html>");
    [reflexivity | discriminate | reflexivity].
Defined.

Lemma fetch_without_redis :
  fetch_json_from_api four_loads dumps_of processor redis_down_world
  = (Ret PNone, console_append [ErrorFetching RedisError] redis_down_world).
Proof.
  apply (fetch_cache_read_error_returns_none four_loads dumps_of processor
           redis_down_world redis_down_world).
  reflexivity.
Defined.

Lemma fetch_without_network :
  let w := empty_cache_world (Raise RequestException) in
  fetch_json_from_api four_loads dumps_of processor w
  = (Ret PNone,
     console_append [ErrorFetching RequestException] (request_counted w)).
Proof.
  apply (fetch_transport_failure_returns_none four_loads dumps_of processor
           (empty_cache_world (Raise RequestException))
           (empty_cache_world (Raise RequestException)) None);
    reflexivity.
Defined.

Lemma fetch_garbled_body :
  let w := empty_cache_world (Ret garbled_response) in
  fetch_json_from_api four_loads dumps_of processor w
  = (Ret PNone,
     console_append [ErrorFetching JSONDecodeError] (request_counted w)).
Proof.
  apply (fetch_malformed_body_returns_none four_loads dumps_of processor
           (empty_cache_world (Ret garbled_response))
           (empty_cache_world (Ret garbled_response)) None garbled_response);
    [reflexivity | reflexivity | reflexivity | simpl; lia | reflexivity].
Defined.

Lemma fetch_first_download_raises :
  let w := empty_cache_world (Ret (ok_response (snapshot four_rates))) in
  fetch_json_from_api four_loads dumps_of
    (on_redis_py "https://api.example/latest/USD") w
  = (Raise TypeError, request_counted w).
Proof.
  apply (fetch_miss_on_redis_py_raises four_loads dumps_of
           "https://api.example/latest/USD"
           (empty_cache_world (Ret (ok_response (snapshot four_rates))))
           (ok_response (snapshot four_rates)) (snapshot four_rates));
    [reflexivity | reflexivity | reflexivity | simpl; lia | reflexivity].
Defined.

(** ** The insert and the other keys on concrete worlds *)

Lemma insert_keeps_cached_document :
  keyspace (insert_into_redis dumps_of
              (on_redis_py "https://api.example/latest/USD")
              (snapshot four_rates) cached_world).2 !! "exchange_rate_data"
  = keyspace cached_world !! "exchange_rate_data".
Proof.
  apply (insert_keeps_other_keys dumps_of "https://api.example/latest/USD"
           (snapshot four_rates) cached_world "exchange_rate_data").
  discriminate.
Defined.

Lemma insert_five_after_four :
  let url := "https://api.example/latest/USD" in
  let once :=
    (insert_into_redis dumps_of (on_redis_py url) (snapshot five_rates)
       cached_world).2 in
  let twice :=
    (insert_into_redis dumps_of (on_redis_py url) (snapshot five_rates)
       (insert_into_redis dumps_of (on_redis_py url) (snapshot four_rates)
          cached_world).2).2 in
  twice = once
  ∧ keyspace twice !! "exchange_rates" = Some (dumps_of (rates_dict five_rates)).
Proof.
  apply (insert_last_wins dumps_of "https://api.example/latest/USD"
           (snapshot_fields four_rates) (snapshot_fields five_rates)
           (rates_dict four_rates) (rates_dict five_rates) cached_world);
    reflexivity.
Defined.

(** ** The reports on documents of other shapes, concretely *)

(** An error document of the provider is skipped by all three reports. *)
Lemma reports_skip_error_document :
  plot_exchange_rates (loads_of (PDict error_fields)) dumps_of processor
    cached_world = (Ret (), cached_world)
  ∧ aggregate_exchange_rates (loads_of (PDict error_fields)) dumps_of processor
      cached_world = (Ret (), cached_world)
  ∧ search_exchange_rates (loads_of (PDict error_fields)) dumps_of processor
      0.5%float 2%float cached_world = (Ret (), cached_world).
Proof.
  apply (reports_skip_without_field (loads_of (PDict error_fields)) dumps_of
           processor 0.5%float 2%float cached_world cached_world error_fields);
    reflexivity.
Defined.

(** A cached text that decodes to the number 5: the membership test raises. *)
Lemma reports_on_a_number :
  ∃ result,
    (result = Ret () ∨ result = Raise TypeError)
    ∧ plot_exchange_rates (loads_of (PNum 5%float)) dumps_of processor
        cached_world = (result, cached_world)
    ∧ aggregate_exchange_rates (loads_of (PNum 5%float)) dumps_of processor
        cached_world = (result, cached_world)
    ∧ search_exchange_rates (loads_of (PNum 5%float)) dumps_of processor
        0.5%float 2%float cached_world = (result, cached_world).
Proof.
  apply (reports_on_non_dict (loads_of (PNum 5%float)) dumps_of processor
           0.5%float 2%float cached_world cached_world (PNum 5%float));
    [reflexivity | discriminate].
Defined.

Lemma reports_on_null_rates :
  plot_exchange_rates (loads_of (PDict null_rates_fields)) dumps_of processor
    cached_world = (Raise AttributeError, cached_world)
  ∧ aggregate_exchange_rates (loads_of (PDict null_rates_fields)) dumps_of
      processor cached_world = (Raise AttributeError, cached_world)
  ∧ search_exchange_rates (loads_of (PDict null_rates_fields)) dumps_of
      processor 0.5%float 2%float cached_world
    = (Raise AttributeError, cached_world).
Proof.
  apply (reports_raise_on_non_mapping_rates (loads_of (PDict null_rates_fields))
           dumps_of processor 0.5%float 2%float cached_world cached_world
           null_rates_fields PNone);
    [reflexivity | reflexivity | discriminate].
Defined.

Lemma reports_on_no_rates :
  plot_exchange_rates (loads_of (snapshot [])) dumps_of processor cached_world
  = (Ret (), figure_shown
               {| bar_x := []; bar_height := [];
                  xlabel := "Currency"; ylabel := "Exchange Rate";
                  title := "Exchange Rates" |} cached_world)
  ∧ aggregate_exchange_rates (loads_of (snapshot [])) dumps_of processor
      cached_world = (Raise ZeroDivisionError, cached_world)
  ∧ search_exchange_rates (loads_of (snapshot [])) dumps_of processor
      0.5%float 2%float cached_world
    = (Ret (), console_append [CurrenciesInRange []] cached_world).
Proof.
  apply (reports_on_empty_mapping (loads_of (snapshot [])) dumps_of processor
           0.5%float 2%float cached_world cached_world (snapshot_fields []));
    reflexivity.
Defined.

Lemma reports_on_first_download :
  let url := "https://api.example/latest/USD" in
  let w := empty_cache_world (Ret (ok_response (snapshot four_rates))) in
  plot_exchange_rates four_loads dumps_of (on_redis_py url) w
  = (Raise TypeError, request_counted w)
  ∧ aggregate_exchange_rates four_loads dumps_of (on_redis_py url) w
    = (Raise TypeError, request_counted w)
  ∧ search_exchange_rates four_loads dumps_of (on_redis_py url)
      0.5%float 2%float w
    = (Raise TypeError, request_counted w).
Proof.
  apply (reports_raise_on_first_download four_loads dumps_of
           "https://api.example/latest/USD" 0.5%float 2%float
           (empty_cache_world (Ret (ok_response (snapshot four_rates))))
           (ok_response (snapshot four_rates)) (snapshot four_rates));
    [reflexivity | reflexivity | reflexivity | simpl; lia | reflexivity].
Defined.

(** ** Order in the figures, concretely *)

Lemma median_of_four_between_extrema :
  ∃ average minimum maximum median,
    aggregate_exchange_rates four_loads dumps_of processor cached_world =
      (Ret (), console_append
                 [AverageRate average; MinimumRate minimum;
                  MaximumRate maximum; MedianRate median] cached_world)
    ∧ num_le minimum median = true
    ∧ num_le median maximum = true.
Proof.
  apply (aggregate_median_between_extrema four_loads dumps_of processor
           cached_world cached_world (snapshot_fields four_rates) four_rates);
    [reflexivity | reflexivity | discriminate | reflexivity].
Defined.

(** From 0.5 to 2 inside from 0.4 to 2.1. *)
Lemma search_five_rates_wider :
  ∃ codes wider_codes,
    search_exchange_rates five_loads dumps_of processor 0.5%float 2%float
      cached_world
    = (Ret (), console_append [CurrenciesInRange codes] cached_world)
    ∧ search_exchange_rates five_loads dumps_of processor 0.4%float 2.1%float
        cached_world
      = (Ret (), console_append [CurrenciesInRange wider_codes] cached_world)
    ∧ codes `sublist_of` wider_codes.
Proof.
  apply (search_wider_range_reports_more five_loads dumps_of processor
           0.5%float 2%float 0.4%float 2.1%float cached_world cached_world
           (snapshot_fields five_rates) five_rates);
    reflexivity.
Defined.

(** From 2 down to 0.5. *)
Lemma search_five_rates_inverted :
  search_exchange_rates five_loads dumps_of processor 2%float 0.5%float
    cached_world
  = (Ret (), console_append [CurrenciesInRange []] cached_world).
Proof.
  apply (search_inverted_bounds_reports_nothing five_loads dumps_of processor
           2%float 0.5%float cached_world cached_world
           (snapshot_fields five_rates) five_rates);
    reflexivity.
Defined.

Lemma search_five_rates_from_nan :
  ∃ codes,
    search_exchange_rates five_loads dumps_of processor nan 2%float cached_world
    = (Ret (), console_append [CurrenciesInRange codes] cached_world)
    ∧ (float_ordered nan = false ∨ float_ordered 2%float = false → codes = [])
    ∧ (∀ c, c ∈ codes → ∃ r, (c, r) ∈ five_rates ∧ float_ordered r = true).
Proof.
  apply (search_leaves_nan_out five_loads dumps_of processor nan 2%float
           cached_world cached_world (snapshot_fields five_rates) five_rates);
    reflexivity.
Defined.

(** ** The script on concrete worlds *)


(** The script on the four cached rates: one chart in ascending order, the
    statistics, and the codes from 0.5 to 2. *)
Example main_prints_and_shows :
  let after := (main four_loads dumps_of "https://api.example/latest/USD"
                  redis_py cached_world).2 in
  stdout after
  = [AverageRate 2.5%float; MinimumRate 1%float; MaximumRate 4%float;
     MedianRate 3%float; CurrenciesInRange ["USD"; "BGN"]]
  ∧ bar_x <$> figures after = [["USD"; "BGN"; "EUR"; "PLN"]]
  ∧ requests_sent after = 0.
Proof. repeat split; reflexivity. Qed.

Lemma main_on_first_download :
  let w := empty_cache_world (Ret (ok_response (snapshot four_rates))) in
  main four_loads dumps_of "https://api.example/latest/USD" redis_py w
  = (Raise TypeError, request_counted w).
Proof.
  apply (main_raises_on_first_download four_loads dumps_of
           "https://api.example/latest/USD"
           (empty_cache_world (Ret (ok_response (snapshot four_rates))))
           (ok_response (snapshot four_rates)) (snapshot four_rates));
    [reflexivity | reflexivity | reflexivity | simpl; lia | reflexivity].
Defined.

Lemma main_on_redis_down_world :
  main four_loads dumps_of "https://api.example/latest/USD" redis_py
    redis_down_world =
    (Ret (),
     console_append
       [ErrorFetching RedisError; ErrorFetching RedisError;
        ErrorFetching RedisError] redis_down_world).
Proof.
  apply (main_without_redis four_loads dumps_of
           "https://api.example/latest/USD" redis_down_world).
  reflexivity.
Defined.
